(** * A model of [app.py], the BNB donation backend

    The application is a Flask service over one SQLite table.  The model
    follows the source function by function:

    - [Py]        the Python values the handlers exchange (exceptions,
                  numbers, JSON documents) and the formatting built-ins;
    - [Double]    binary64 numbers: the Python [float] and the SQLite
                  [REAL];
    - [Datetime]  naive [datetime] values and [timedelta] with its
                  normalised [days]/[seconds]/[microseconds] fields;
    - [Sqlite]    the [donations] table and the SQL statements of the
                  source, as functions on the table;
    - [Runtime]   the effects of a call: the database file, its rollback
                  journal, standard output and the clock;
    - [Connection] the connection object and [sqlite3.connect];
    - then [init_database], [get_db_connection], the three handlers and
      the start-up block, under their own names.

    Conventions.  A [datetime] is its number of microseconds on the naive
    time line, and [ORDER BY timestamp] compares these numbers: the stored
    texts, all in the one ISO format, compare the same way.  An [amount]
    is the number as it is written; the [REAL] column keeps the nearest
    binary64 number, which is what [SUM] adds and what a [SELECT] reads
    ([Double]).  A table that exists has the declared columns, none of
    them [NULL].  The process-wide lock is not modelled: one call runs at
    a time.  A storage error that the file does not explain (a locked
    database, an I/O error) enters through the connection a function is
    given: [get_stats_via], [startup_via].  The directory of the file, the
    port and the debug switch of [app.run] are left out. *)

From Stdlib Require Import ZArith QArith Qround Qabs List String Lia Lqa.
From Stdlib Require Import Sorting.Sorted Sorting.Permutation.
From Stdlib Require Import SpecFloat.
From Stdlib Require DecimalString PrimFloat FloatOps.
Import ListNotations.

Local Open Scope string_scope.
Local Open Scope Z_scope.

(* ===================================================================== *)
(** * Python values *)
(* ===================================================================== *)

Module Py.

(** The exception classes that the source names or that SQLite raises
    through [sqlite3].  [OperationalError] and [IntegrityError] are
    subclasses of [DatabaseError]; all of them are [Exception]s. *)
Inductive exn_class :=
| OperationalError
| IntegrityError
| DatabaseError
| OtherException.

Record exn := Exn { exn_cls : exn_class; exn_msg : string }.

(** [except sqlite3.OperationalError] *)
Definition is_OperationalError (e : exn) : bool :=
  match exn_cls e with OperationalError => true | _ => false end.

(** [str(n)] for an [int]. *)
Definition str_int (n : Z) : string :=
  DecimalString.NilZero.string_of_int (Z.to_int n).

(** Python numbers: [int] and [float]; a finite [float] by its exact
    value. *)
Inductive number :=
| Int (z : Z)
| Float (q : Q)
| Infinity (negative : bool)
| NaN.

(** Rounding to the nearest integer, ties to even. *)
Definition round_half_even (x : Q) : Z :=
  let f := Qfloor x in
  match Qcompare (x - inject_Z f) (1 # 2) with
  | Lt => f
  | Gt => f + 1
  | Eq => if Z.even f then f else f + 1
  end.

(** [round(x, 4)], as [jsonify] then writes it. An [int], an infinity
    and a NaN are returned as they are. For a finite [float] the result is
    the binary64 number nearest to [k / 10000], [k] being [x * 10000]
    rounded half to even on the exact value of [x]; [jsonify] writes its
    shortest [repr], which for [x] below 10^11 in size is [k / 10000]
    itself: that number is what the model keeps. *)
Definition round4 (x : number) : number :=
  match x with
  | Float q => Float (Qred (round_half_even (q * inject_Z 10000) # 10000))
  | _ => x
  end.

Fixpoint zeros (n : nat) : string :=
  match n with
  | O => ""
  | S k => "0" ++ zeros k
  end.

(** [s.zfill(width)] on a string of digits. *)
Definition zfill (width : nat) (s : string) : string :=
  zeros (width - String.length s) ++ s.

(** [f"{x:.4f}"] *)
Definition format_4f (x : Q) : string :=
  let n := Z.abs (round_half_even (x * inject_Z 10000)) in
  (if Qlt_le_dec x 0 then "-" else "")
    ++ str_int (n / 10000) ++ "." ++ zfill 4 (str_int (n mod 10000)).

(** JSON documents, as [jsonify] receives them. *)
#[warnings="-register-all"] Inductive json :=
| JNum (n : number)
| JStr (s : string)
| JList (l : list json)
| JDict (fields : list (string * json)).

End Py.
Import Py.

(* ===================================================================== *)
(** * Binary64 numbers *)
(* ===================================================================== *)

Module Double.

(** A Python [float], a C [double], an SQLite [REAL]: binary64, in the
    Standard Library's specification of IEEE 754. *)
Definition double : Type := spec_float.

Definition zero : double := S754_zero false.

(** The binary64 number nearest to a rational, ties to even: how a
    decimal literal is read and how a number is stored in a [REAL]
    column. *)
Definition of_Q (q : Q) : double :=
  match Qnum q with
  | Z0 => S754_zero false
  | Zpos n =>
      let '(m, e, l) :=
        SFdiv_core_binary 53 1024 (Zpos n) 0 (Zpos (Qden q)) 0 in
      binary_round_aux 53 1024 false m e l
  | Zneg n =>
      let '(m, e, l) :=
        SFdiv_core_binary 53 1024 (Zpos n) 0 (Zpos (Qden q)) 0 in
      binary_round_aux 53 1024 true m e l
  end.

(** The exact value of a finite binary64 number. *)
Definition to_Q (x : double) : option Q :=
  match x with
  | S754_zero _ => Some 0%Q
  | S754_finite s m e =>
      let z := if s then Zneg m else Zpos m in
      Some (match e with
            | Zneg k => z # (2 ^ k)
            | _ => inject_Z (z * 2 ^ e)
            end)
  | S754_infinity _ => None
  | S754_nan => None
  end.

(** [x + y] *)
Definition add (x y : double) : double := SFadd 53 1024 x y.

(** A [float] as a Python number. *)
Definition to_number (x : double) : number :=
  match x with
  | S754_infinity s => Infinity s
  | S754_nan => NaN
  | _ => match to_Q x with
         | Some q => Float q
         | None => NaN
         end
  end.

(** What a [REAL] column gives back for the number written into it. A
    number beyond the binary64 range, which the column would keep as an
    infinity, is left as it is: the model does not follow an infinite
    amount of a single row. *)
Definition stored (q : Q) : Q :=
  match to_Q (of_Q q) with
  | Some r => r
  | None => q
  end.

End Double.

(* ===================================================================== *)
(** * [datetime] and [timedelta] *)
(* ===================================================================== *)

Module Datetime.

(** A naive [datetime]: microseconds on the time line. *)
Definition datetime := Z.

Definition us_per_second : Z := 1000000.
Definition us_per_hour : Z := 3600 * us_per_second.
Definition us_per_day : Z := 86400 * us_per_second.

(** A [timedelta] is kept normalised: [0 <= seconds < 86400] and
    [0 <= microseconds < 1000000]; only [days] carries the sign. *)
Record timedelta := Timedelta
  { days : Z; seconds : Z; microseconds : Z }.

Definition normalize (us : Z) : timedelta :=
  {| days := us / us_per_day;
     seconds := (us mod us_per_day) / us_per_second;
     microseconds := us mod us_per_second |}.

(** [timedelta(days=d, hours=h)] *)
Definition timedelta_of (d h : Z) : timedelta :=
  normalize (d * us_per_day + h * us_per_hour).

Definition total_us (d : timedelta) : Z :=
  days d * us_per_day + seconds d * us_per_second + microseconds d.

(** [a - b] on two [datetime]s. *)
Definition sub (a b : datetime) : timedelta := normalize (a - b).

(** [a - d] on a [datetime] and a [timedelta]. *)
Definition minus (a : datetime) (d : timedelta) : datetime :=
  a - total_us d.

End Datetime.
Import Datetime.

(** The age label of one recent donation: the [if]/[elif] chain of the
    loop in [get_stats]. *)
Definition time_ago (time_diff : timedelta) : string :=
  if 0 <? days time_diff then
    str_int (days time_diff) ++ "d ago"
  else if 3600 <=? seconds time_diff then
    let hours := seconds time_diff / 3600 in
    str_int hours ++ "h ago"
  else if 60 <=? seconds time_diff then
    let minutes := seconds time_diff / 60 in
    str_int minutes ++ "m ago"
  else
    "just now".

(* ===================================================================== *)
(** * The [donations] table *)
(* ===================================================================== *)

Module Sqlite.

(** One row of [donations], with the columns of the [CREATE TABLE]
    statement in [init_database]. *)
Record donation := Donation
  { id : Z;
    crypto_type : string;
    amount : Q;
    transaction_hash : string;
    timestamp : datetime }.

(** The table and the [AUTOINCREMENT] counter SQLite keeps for it: the
    largest [id] ever handed out. *)
Record table := Table { rows : list donation; seq : Z }.

Definition empty_table : table := {| rows := []; seq := 0 |}.

(** What the file at [DATABASE_PATH] holds: bytes that are no SQLite
    database, or a database with or without the [donations] table. What
    else a database may hold is not followed: the application creates no
    other table. *)
Inductive file :=
| Garbage
| Database (t : option table).

(** The values bound to the four [?] of the [INSERT] statement. *)
Definition insert_values : Type := (string * Q * string * datetime)%type.

Definition hash_in_use (h : string) (t : table) : bool :=
  existsb (fun d => String.eqb (transaction_hash d) h) (rows t).

(** [INSERT INTO donations (crypto_type, amount, transaction_hash,
    timestamp) VALUES (?, ?, ?, ?)]: the [UNIQUE] constraint on
    [transaction_hash] aborts the statement. *)
Definition insert (v : insert_values) (t : table) : exn + table :=
  let '(ct, amt, h, ts) := v in
  if hash_in_use h t then
    inl (Exn IntegrityError
           "UNIQUE constraint failed: donations.transaction_hash")
  else
    let new_id := seq t + 1 in
    inr {| rows := rows t ++ [Donation new_id ct amt h ts];
           seq := new_id |}.

(** [SUM(amount)]: SQLite adds the binary64 values one row after the
    other, from zero, and counts them; over no row the aggregate is
    [NULL]. (So up to SQLite 3.42. From 3.43 on a correction term is
    carried through the additions and added at the end; it is zero
    whenever no addition rounds.) *)
Definition sum_step (acc : Double.double * nat) (d : donation)
    : Double.double * nat :=
  (Double.add (fst acc) (Double.of_Q (amount d)), S (snd acc)).

Definition sql_sum (l : list donation) : option Double.double :=
  let '(total, cnt) := fold_left sum_step l (Double.zero, O) in
  match cnt with
  | O => None
  | S _ => Some total
  end.

(** [SELECT COALESCE(SUM(amount), 0) as total FROM donations]: the
    [float] of the sum, or the [int] 0 of [COALESCE]. *)
Definition select_total (t : table) : number :=
  match sql_sum (rows t) with
  | Some total => Double.to_number total
  | None => Int 0
  end.

(** [SELECT COUNT( * ) FROM donations] *)
Definition select_count (t : table) : Z :=
  Z.of_nat (List.length (rows t)).

(** [ORDER BY timestamp DESC]: rows with the same timestamp stay in
    table order. *)
Fixpoint insert_desc (d : donation) (l : list donation) : list donation :=
  match l with
  | [] => [d]
  | x :: l' =>
      if timestamp x <=? timestamp d then d :: l
      else x :: insert_desc d l'
  end.

Definition order_by_timestamp_desc (l : list donation) : list donation :=
  fold_right insert_desc [] l.

(** [SELECT amount, timestamp ... ORDER BY timestamp DESC LIMIT 3],
    before the projection on the two columns. *)
Definition select_recent (t : table) : list donation :=
  firstn 3 (order_by_timestamp_desc (rows t)).

End Sqlite.
Import Sqlite.

(* ===================================================================== *)
(** * Effects *)
(* ===================================================================== *)

Module Runtime.

(** What a call can read and change. [disk] is the file at
    [DATABASE_PATH] ([None]: no such file). [journal] is the copy SQLite
    keeps while a transaction is open, to roll back to. [clock] gives the
    successive readings of [datetime.now()] and [ticks] counts those
    already taken. *)
Record world := World
  { disk : option file;
    journal : option file;
    stdout : list string;
    clock : nat -> datetime;
    ticks : nat }.

Definition set_disk (f : option file) (w : world) : world :=
  {| disk := f; journal := journal w; stdout := stdout w;
     clock := clock w; ticks := ticks w |}.

Definition set_journal (j : option file) (w : world) : world :=
  {| disk := disk w; journal := j; stdout := stdout w;
     clock := clock w; ticks := ticks w |}.

Inductive result (A : Type) :=
| Ok (a : A)
| Raise (e : exn).
Arguments Ok {A} a.
Arguments Raise {A} e.

Definition M (A : Type) : Type := world -> result A * world.

Definition ret {A} (a : A) : M A := fun w => (Ok a, w).

Definition bind {A B} (c : M A) (k : A -> M B) : M B :=
  fun w => match c w with
           | (Ok a, w') => k a w'
           | (Raise e, w') => (Raise e, w')
           end.

Definition raise {A} (e : exn) : M A := fun w => (Raise e, w).

(** [try: c  except Exception as e: h e] *)
Definition try_except {A} (c : M A) (h : exn -> M A) : M A :=
  fun w => match c w with
           | (Ok a, w') => (Ok a, w')
           | (Raise e, w') => h e w'
           end.

(** [try: c  except cls as e: h e], for the exceptions [handles]
    selects; the others pass through. *)
Definition try_except_only {A} (handles : exn -> bool)
    (c : M A) (h : exn -> M A) : M A :=
  try_except c (fun e => if handles e then h e else raise e).

Definition lift {A} (r : result A) : M A := fun w => (r, w).

(** [print(s)] *)
Definition print (s : string) : M unit :=
  fun w => (Ok tt,
            {| disk := disk w; journal := journal w;
               stdout := (stdout w ++ [s])%list;
               clock := clock w; ticks := ticks w |}).

(** [datetime.now()] *)
Definition datetime_now : M datetime :=
  fun w => (Ok (clock w (ticks w)),
            {| disk := disk w; journal := journal w; stdout := stdout w;
               clock := clock w; ticks := S (ticks w) |}).

(** [for x in l: f x], collecting the results. *)
Fixpoint for_each {A B} (f : A -> M B) (l : list A) : M (list B) :=
  match l with
  | [] => ret []
  | x :: l' =>
      bind (f x) (fun y => bind (for_each f l') (fun ys => ret (y :: ys)))
  end.

End Runtime.
Import Runtime.

Declare Scope monad_scope.
Delimit Scope monad_scope with monad.
Notation "x <- c ;; k" := (bind c (fun x => k))
  (at level 61, c at next level, right associativity) : monad_scope.
Notation "' pat <- c ;; k" := (bind c (fun x => match x with pat => k end))
  (at level 61, pat pattern, c at next level, right associativity)
  : monad_scope.
Notation "c ;; k" := (bind c (fun _ => k))
  (at level 61, right associativity) : monad_scope.
Local Open Scope monad_scope.

(* ===================================================================== *)
(** * Connections *)
(* ===================================================================== *)

Module Connection.

(** One row of the result of the recent-donations query, with its
    [timestamp] column already converted to a [datetime]. *)
Record row := Row { row_amount : Q; row_timestamp : datetime }.

(** A connection, seen through the statements the source executes on
    it. Each field is one [execute] (and its [fetch]) or one method;
    [execute_count] serves both [SELECT COUNT( * )], with and without
    [as count]. *)
Record connection := Conn
  { execute_create_table : M unit;
    execute_count : M Z;
    execute_insert : insert_values -> M unit;
    execute_total : M number;
    execute_recent : M (list row);
    execute_probe : M unit;
    commit : M unit;
    rollback : M unit;
    close : M unit }.

Definition not_a_database : exn :=
  Exn DatabaseError "file is not a database".
Definition no_such_table : exn :=
  Exn OperationalError "no such table: donations".
Definition unable_to_open : exn :=
  Exn OperationalError "unable to open database file".

(** A [SELECT] on [donations], as far as the content of the file decides
    it. A statement that fails for another reason (the database is locked,
    the disk does not answer) is a statement of another connection, such
    as [locked_connection] below. *)
Definition select {A} (f : table -> A) : M A :=
  fun w => match disk w with
           | Some (Database (Some t)) => (Ok (f t), w)
           | Some (Database None) => (Raise no_such_table, w)
           | Some Garbage => (Raise not_a_database, w)
           | None => (Raise unable_to_open, w)
           end.

(** [CREATE TABLE IF NOT EXISTS donations (...)] *)
Definition create_table_if_not_exists : M unit :=
  fun w => match disk w with
           | Some (Database (Some _)) => (Ok tt, w)
           | Some (Database None) =>
               (Ok tt, set_disk (Some (Database (Some empty_table))) w)
           | Some Garbage => (Raise not_a_database, w)
           | None => (Raise unable_to_open, w)
           end.

(** The [sqlite3] module opens a transaction before an [INSERT] when
    none is open: the journal then holds the file as it was. *)
Definition begin_if_needed (w : world) : world :=
  match journal w with
  | Some _ => w
  | None => set_journal (disk w) w
  end.

Definition insert_into_donations (v : insert_values) : M unit :=
  fun w => match disk w with
           | Some (Database (Some t)) =>
               let w' := begin_if_needed w in
               match insert v t with
               | inr t' => (Ok tt, set_disk (Some (Database (Some t'))) w')
               | inl e => (Raise e, w')
               end
           | Some (Database None) => (Raise no_such_table, w)
           | Some Garbage => (Raise not_a_database, w)
           | None => (Raise unable_to_open, w)
           end.

Definition do_commit : M unit :=
  fun w => (Ok tt, set_journal None w).

Definition do_rollback : M unit :=
  fun w => match journal w with
           | Some f => (Ok tt, set_journal None (set_disk (Some f) w))
           | None => (Ok tt, w)
           end.

(** The two columns of the recent-donations query, as read from the
    table. *)
Definition project (d : donation) : row :=
  {| row_amount := Double.stored (amount d);
     row_timestamp := timestamp d |}.

(** The connection [sqlite3.connect(DATABASE_PATH)] returns. Closing it
    discards a transaction that is still open. *)
Definition sqlite_connection : connection :=
  {| execute_create_table := create_table_if_not_exists;
     execute_count := select select_count;
     execute_insert := insert_into_donations;
     execute_total := select select_total;
     execute_recent := select (fun t => map project (select_recent t));
     execute_probe := select (fun _ => tt);
     commit := do_commit;
     rollback := do_rollback;
     close := do_rollback |}.

(** [sqlite3.connect(DATABASE_PATH)]: a missing file is created, as an
    empty database; the content of an existing file is not looked at
    before the first statement. *)
Definition sqlite3_connect : M connection :=
  fun w => match disk w with
           | None => (Ok sqlite_connection, set_disk (Some (Database None)) w)
           | Some _ => (Ok sqlite_connection, w)
           end.

(** [with conn: body]: commit when [body] returns, roll back when it
    raises. *)
Definition with_connection {A} (conn : connection) (body : M A) : M A :=
  try_except
    (a <- body ;; commit conn ;; ret a)
    (fun e => rollback conn ;; raise e).

End Connection.
Import Connection.

(* ===================================================================== *)
(** * The application *)
(* ===================================================================== *)

Record response := Response { body : json + string; status : Z }.

(** [jsonify(doc)] and [jsonify(doc), code] *)
Definition jsonify (doc : json) (code : Z) : response :=
  {| body := inl doc; status := code |}.

Definition BSC_ADDRESS : string :=
  "0xd5d16f8A035fc52F4a93890D52Ca58004CF6E9B0".
Definition BSC_CHAIN_ID : Z := 56.

(** [DATABASE_PATH], from the value of the environment variable
    [RENDER]. *)
Definition DATABASE_PATH (RENDER : option string) : string :=
  match RENDER with
  | Some (String _ _) => "/opt/render/project/data/donations_bnb.db"
  | _ => "donations_bnb.db"
  end.

(** [sample_donations], built from three readings of the clock. *)
Definition sample_donations (t1 t2 t3 : datetime) : list insert_values :=
  [ ("BNB", 0.05%Q, "sample_tx_1_bnb", minus t1 (timedelta_of 0 1));
    ("BNB", 0.02%Q, "sample_tx_2_bnb", minus t2 (timedelta_of 0 3));
    ("BNB", 0.1%Q, "sample_tx_3_bnb", minus t3 (timedelta_of 1 0)) ].

Definition init_database : M unit :=
  conn <- sqlite3_connect ;;
  with_connection conn
    (execute_create_table conn ;;
     n <- execute_count conn ;;
     (if n =? 0 then
        print "Database is empty. Populating with sample BNB donations..." ;;
        t1 <- datetime_now ;;
        t2 <- datetime_now ;;
        t3 <- datetime_now ;;
        for_each (execute_insert conn) (sample_donations t1 t2 t3) ;;
        commit conn
      else ret tt) ;;
     print "Database initialized successfully.").

(** [detect_types] and [row_factory] are what makes the rows of
    [execute_recent] records with a [datetime] in them. *)
Definition get_db_connection : M connection :=
  conn <- sqlite3_connect ;;
  ret conn.

(** The dictionary [get_stats] appends to [recent_donations]. *)
Definition entry_document (donation : row) (age : string) : json :=
  JDict [ ("amount", JStr (format_4f (row_amount donation) ++ " BNB"));
          ("time", JStr age) ].

(** The body of the loop of [get_stats], for one row. *)
Definition recent_entry (donation : row) : M json :=
  now <- datetime_now ;;
  let time_diff := sub now (row_timestamp donation) in
  ret (entry_document donation (time_ago time_diff)).

Definition stats_document (total_donations : Z) (total_amount_bnb : number)
    (recent_donations : list json) : json :=
  JDict [ ("total_donations", JNum (Int total_donations));
          ("total_amount_bnb", JNum total_amount_bnb);
          ("recent_donations", JList recent_donations) ].

(** The [with db_lock:] block of [get_stats]. *)
Definition read_stats (get_db_connection : M connection)
    : M (number * Z * list row) :=
  conn <- get_db_connection ;;
  total_bnb <- execute_total conn ;;
  total_donations <- execute_count conn ;;
  recent_donations_raw <- execute_recent conn ;;
  close conn ;;
  ret (total_bnb, total_donations, recent_donations_raw).

(** [get_stats], over the function it calls to open the connection. *)
Definition get_stats_via (get_db_connection : M connection) : M response :=
  try_except
    ('(total_bnb, total_donations, recent_donations_raw)
       <- read_stats get_db_connection ;;
     recent_donations <- for_each recent_entry recent_donations_raw ;;
     ret (jsonify
            (stats_document total_donations (round4 total_bnb)
               recent_donations)
            200))
    (fun e =>
       print ("Error in get_stats: " ++ exn_msg e) ;;
       ret (jsonify (stats_document 0 (Int 0) []) 500)).

Definition get_stats : M response := get_stats_via get_db_connection.

Section Handlers.

(** [qrcode], [PIL] and [base64] behind [generate_qr_code], and the
    template engine behind [render_template], are libraries: a function
    from the text to the result or to the exception raised. *)
Variable generate_qr_code : string -> result string.
Variable render_template : string -> result string.

Definition index : M response :=
  page <- lift (render_template "index.html") ;;
  ret {| body := inr page; status := 200 |}.

Definition crypto_info : M response :=
  try_except
    (let payment_link :=
       "ethereum:" ++ BSC_ADDRESS ++ "@" ++ str_int BSC_CHAIN_ID in
     qr_code_base64 <- lift (generate_qr_code payment_link) ;;
     ret (jsonify
            (JDict [ ("address", JStr BSC_ADDRESS);
                     ("network", JStr "BNB Smart Chain");
                     ("token", JStr "BNB");
                     ("qr_code",
                      JStr ("data:image/png;base64," ++ qr_code_base64));
                     ("payment_link", JStr payment_link) ])
            200))
    (fun e =>
       print ("Error in crypto_info: " ++ exn_msg e) ;;
       ret (jsonify
              (JDict [ ("error", JStr "Failed to generate crypto info") ])
              500)).

End Handlers.

(** [os.path.exists(DATABASE_PATH)] and [os.remove(DATABASE_PATH)] *)
Definition os_path_exists : M bool :=
  fun w => (Ok (match disk w with Some _ => true | None => false end), w).

Definition os_remove : M unit :=
  fun w => match disk w with
           | Some _ => (Ok tt, set_disk None w)
           | None => (Raise (Exn OtherException "No such file or directory"), w)
           end.

(** The [try] block of the start-up code, over the function it calls to
    open the connection: does the file hold the table? *)
Definition check_database_via (get_db_connection : M connection) : M unit :=
  conn <- get_db_connection ;;
  execute_probe conn ;;
  close conn ;;
  print "Database exists and is properly structured.".

Definition check_database : M unit := check_database_via get_db_connection.

(** The [except sqlite3.OperationalError:] block. *)
Definition recover : M unit :=
  print "Database exists but needs initialization." ;;
  os_remove ;;
  init_database.

(** The [if __name__ == '__main__':] block, up to the call of [app.run],
    over the function the check calls to open the connection. *)
Definition startup_via (RENDER : option string)
    (get_db_connection : M connection) : M unit :=
  file_exists <- os_path_exists ;;
  if negb file_exists then
    print ("Creating database at " ++ DATABASE_PATH RENDER) ;;
    init_database
  else
    try_except_only is_OperationalError
      (check_database_via get_db_connection)
      (fun _ => recover).

Definition startup (RENDER : option string) : M unit :=
  startup_via RENDER get_db_connection.

(* ===================================================================== *)
(** * Vocabulary of the properties *)
(* ===================================================================== *)

(** The table a world holds, if it holds one. *)
Definition table_of (w : world) : option table :=
  match disk w with
  | Some (Database (Some t)) => Some t
  | _ => None
  end.

(** The donation records of a world: none when there is no table. *)
Definition records_of (w : world) : list donation :=
  match table_of w with
  | Some t => rows t
  | None => []
  end.

(** A store without any donation: no file, no table, or a table without
    rows. *)
Definition empty_store (w : world) : Prop :=
  match disk w with
  | None => True
  | Some (Database None) => True
  | Some (Database (Some t)) => rows t = []
  | Some Garbage => False
  end.

(** The columns of a row that an [INSERT] supplies. *)
Definition values_of (d : donation) : insert_values :=
  (crypto_type d, amount d, transaction_hash d, timestamp d).

(** "Sum of [amount] across all records", as the description of the
    storage layer words it. *)
Fixpoint sum_amounts (l : list donation) : Q :=
  match l with
  | [] => 0%Q
  | d :: l' => (amount d + sum_amounts l')%Q
  end.



(** Orders on rows: [newer a b] when [a] is stamped after [b]. *)
Definition newer (a b : donation) : Prop := timestamp b < timestamp a.
Definition not_older (a b : donation) : Prop := timestamp b <= timestamp a.

(** The entries [get_stats] renders for the rows [l], the first one at
    the [n]-th reading of the clock. *)
Fixpoint rendered (clk : nat -> datetime) (n : nat) (l : list row)
    : list json :=
  match l with
  | [] => []
  | r :: l' =>
      entry_document r (time_ago (sub (clk n) (row_timestamp r)))
        :: rendered clk (S n) l'
  end.

(** Some storage operation of [get_stats] raises [e], leaving the world
    [w']: opening the connection, one of the three queries, or closing. *)
Inductive storage_fault (connect : M connection) (w : world)
    (e : exn) (w' : world) : Prop :=
| fault_connect :
    connect w = (Raise e, w') -> storage_fault connect w e w'
| fault_total conn w1 :
    connect w = (Ok conn, w1) ->
    execute_total conn w1 = (Raise e, w') -> storage_fault connect w e w'
| fault_count conn w1 total w2 :
    connect w = (Ok conn, w1) ->
    execute_total conn w1 = (Ok total, w2) ->
    execute_count conn w2 = (Raise e, w') -> storage_fault connect w e w'
| fault_recent conn w1 total w2 n w3 :
    connect w = (Ok conn, w1) ->
    execute_total conn w1 = (Ok total, w2) ->
    execute_count conn w2 = (Ok n, w3) ->
    execute_recent conn w3 = (Raise e, w') -> storage_fault connect w e w'
| fault_close conn w1 total w2 n w3 raw w4 :
    connect w = (Ok conn, w1) ->
    execute_total conn w1 = (Ok total, w2) ->
    execute_count conn w2 = (Ok n, w3) ->
    execute_recent conn w3 = (Ok raw, w4) ->
    close conn w4 = (Raise e, w') -> storage_fault connect w e w'.

(** The table [init_database] leaves when it seeds a table whose counter
    stands at [s], reading the clock [clk] from its [n]-th reading on. *)
Definition seeded_table (s : Z) (clk : nat -> datetime) (n : nat) : table :=
  {| rows :=
       [ Donation (s + 1) "BNB" 0.05%Q "sample_tx_1_bnb"
           (clk n - us_per_hour);
         Donation (s + 1 + 1) "BNB" 0.02%Q "sample_tx_2_bnb"
           (clk (S n) - 3 * us_per_hour);
         Donation (s + 1 + 1 + 1) "BNB" 0.1%Q "sample_tx_3_bnb"
           (clk (S (S n)) - us_per_day) ];
     seq := s + 1 + 1 + 1 |}.

(** Standard output after a run of [init_database] that seeds. *)
Definition seeding_lines (out : list string) : list string :=
  List.app
    (List.app out
       ["Database is empty. Populating with sample BNB donations..."])
    ["Database initialized successfully."].

(** The seed amounts as IEEE doubles, added one after the other from
    zero. *)
Module Binary64.

Import PrimFloat.

#[warnings="-inexact-float"] Definition sample_amounts : list float :=
  [0.05%float; 0.02%float; 0.1%float].

Definition total (l : list float) : float :=
  fold_left PrimFloat.add l 0%float.

#[warnings="-inexact-float"] Definition python_sum : float :=
  (0.05 + 0.02 + 0.1)%float.

#[warnings="-inexact-float"] Definition seventeen_hundredths : float :=
  0.17%float.

End Binary64.

(** ** Sample inputs *)

Definition noon : datetime := 20000 * us_per_day + 12 * us_per_hour.

(** A world whose clock stands at [now], with [f] at [DATABASE_PATH]. *)
Definition world_at (now : datetime) (f : option file) : world :=
  {| disk := f; journal := None; stdout := [];
     clock := fun _ => now; ticks := O |}.

Definition one_donation (ts : datetime) : table :=
  {| rows := [Donation 1 "BNB" 0.05%Q "0xabc" ts]; seq := 1 |}.

(** Two donations stamped at the same instant. *)
Definition tied_table : table :=
  {| rows := [ Donation 1 "BNB" 0.05%Q "0xabc" noon;
               Donation 2 "BNB" 0.02%Q "0xdef" noon ];
     seq := 2 |}.

(** Four donations, the third one the oldest. *)
Definition four_donations : table :=
  {| rows := [ Donation 1 "BNB" 0.05%Q "0xabc" noon;
               Donation 2 "BNB" 0.02%Q "0xdef" (noon + us_per_hour);
               Donation 3 "BNB" 0.1%Q "0x123" (noon - us_per_hour);
               Donation 4 "BNB" 0.3%Q "0x456" (noon + 2 * us_per_hour) ];
     seq := 4 |}.



(** A connection to a database that another process keeps locked. *)
Definition locked : exn := Exn OperationalError "database is locked".

Definition locked_connection : connection :=
  {| execute_create_table := raise locked;
     execute_count := raise locked;
     execute_insert := fun _ => raise locked;
     execute_total := raise locked;
     execute_recent := raise locked;
     execute_probe := raise locked;
     commit := raise locked;
     rollback := ret tt;
     close := ret tt |}.

(** A connection whose first query fails. *)
Definition broken_connection : connection :=
  {| execute_create_table := ret tt;
     execute_count := ret 0;
     execute_insert := fun _ => ret tt;
     execute_total := raise (Exn OperationalError "disk I/O error");
     execute_recent := ret [];
     execute_probe := ret tt;
     commit := ret tt;
     rollback := ret tt;
     close := ret tt |}.

(** ** Further vocabulary *)

(** [debug_mode = os.environ.get('RENDER') is None], of the start-up
    block. *)
Definition debug_mode (RENDER : option string) : bool :=
  match RENDER with
  | None => true
  | Some _ => false
  end.

(** What the schema promises of a table: [transaction_hash] is [UNIQUE],
    [id] is the primary key, and the [AUTOINCREMENT] counter is not below
    any [id]. *)
Definition table_ok (t : table) : Prop :=
  NoDup (map transaction_hash (rows t)) /\
  NoDup (map id (rows t)) /\
  Forall (fun d => id d <= seq t) (rows t).

(** Six successive readings of the clock, from the [n]-th on, that do
    not go back and span less than an hour. *)
Definition steady (clk : nat -> datetime) (n : nat) : Prop :=
  clk n <= clk (S n) /\
  clk (S n) <= clk (S (S n)) /\
  clk (S (S n)) <= clk (S (S (S n))) /\
  clk (S (S (S n))) <= clk (S (S (S (S n)))) /\
  clk (S (S (S (S n)))) <= clk (S (S (S (S (S n))))) /\
  clk (S (S (S (S (S n))))) < clk n + us_per_hour.

Definition is_digit (c : Ascii.ascii) : bool :=
  ((48 <=? Ascii.nat_of_ascii c) && (Ascii.nat_of_ascii c <=? 57))%nat.

(** Four characters, all of them decimal digits. *)
Definition four_digits (s : string) : bool :=
  ((String.length s =? 4)%nat
   && forallb is_digit (list_ascii_of_string s))%bool.

(* ===================================================================== *)
(** * Relative age of a donation *)
(* ===================================================================== *)

Section Age.

Lemma normalize_days (e : Z) : days (normalize e) = e / us_per_day.
Proof. reflexivity. Qed.

Lemma normalize_seconds_small (e : Z) :
  0 <= e < us_per_day -> seconds (normalize e) = e / us_per_second.
Proof.
  intros H. unfold normalize; simpl.
  rewrite Z.mod_small by exact H. reflexivity.
Qed.

Lemma time_ago_days (e : Z) :
  us_per_day <= e ->
  time_ago (normalize e) = str_int (e / us_per_day) ++ "d ago".
Proof.
  intros H. unfold time_ago. rewrite normalize_days.
  assert (Hd : 0 < e / us_per_day).
  { apply Z.div_str_pos. unfold us_per_day, us_per_second in *. lia. }
  apply Z.ltb_lt in Hd. rewrite Hd. reflexivity.
Qed.

Lemma time_ago_below_day (e : Z) :
  0 <= e < us_per_day ->
  time_ago (normalize e) =
    if 3600 <=? e / us_per_second then
      str_int (e / us_per_second / 3600) ++ "h ago"
    else if 60 <=? e / us_per_second then
      str_int (e / us_per_second / 60) ++ "m ago"
    else "just now".
Proof.
  intros H. unfold time_ago.
  rewrite normalize_days, normalize_seconds_small by exact H.
  rewrite Z.div_small by exact H. reflexivity.
Qed.

Lemma time_ago_hours (e : Z) :
  us_per_hour <= e < us_per_day ->
  time_ago (normalize e) = str_int (e / us_per_hour) ++ "h ago".
Proof.
  intros H.
  assert (H0 : 0 <= e < us_per_day)
    by (unfold us_per_hour, us_per_day, us_per_second in *; lia).
  rewrite (time_ago_below_day e H0).
  assert (Hs : 3600 <= e / us_per_second).
  { apply Z.div_le_lower_bound;
      unfold us_per_hour, us_per_second in *; lia. }
  apply Z.leb_le in Hs. rewrite Hs.
  rewrite Z.div_div by (unfold us_per_second; lia).
  reflexivity.
Qed.




End Age.



(* ===================================================================== *)
(** * The recent donations *)
(* ===================================================================== *)

Section Recent.

Lemma insert_desc_length (d : donation) (l : list donation) :
  List.length (insert_desc d l) = S (List.length l).
Proof.
  induction l as [| x l IH]; simpl; [reflexivity |].
  destruct (timestamp x <=? timestamp d); simpl; [reflexivity |].
  now rewrite IH.
Qed.

Lemma order_by_length (l : list donation) :
  List.length (order_by_timestamp_desc l) = List.length l.
Proof.
  induction l as [| d l IH]; simpl; [reflexivity |].
  now rewrite insert_desc_length, IH.
Qed.

Lemma insert_desc_perm (d : donation) (l : list donation) :
  Permutation (d :: l) (insert_desc d l).
Proof.
  induction l as [| x l IH]; simpl; [apply Permutation_refl |].
  destruct (timestamp x <=? timestamp d); [apply Permutation_refl |].
  eapply perm_trans; [apply perm_swap |].
  now apply perm_skip.
Qed.

Lemma order_by_perm (l : list donation) :
  Permutation l (order_by_timestamp_desc l).
Proof.
  induction l as [| d l IH]; simpl; [apply perm_nil |].
  eapply perm_trans; [apply perm_skip, IH | apply insert_desc_perm].
Qed.

Lemma insert_desc_sorted (d : donation) (l : list donation) :
  StronglySorted not_older l -> StronglySorted not_older (insert_desc d l).
Proof.
  induction 1 as [| x l Hs IH Hx]; simpl.
  - constructor; [constructor | constructor].
  - destruct (Z.leb_spec (timestamp x) (timestamp d)) as [Hle | Hgt].
    + constructor; [now constructor |].
      constructor; [exact Hle |].
      eapply Forall_impl; [| exact Hx].
      intros a Ha. unfold not_older in *. lia.
    + constructor; [exact IH |].
      eapply Permutation_Forall; [apply insert_desc_perm |].
      constructor; [unfold not_older; lia | exact Hx].
Qed.

Lemma order_by_sorted (l : list donation) :
  StronglySorted not_older (order_by_timestamp_desc l).
Proof.
  induction l as [| d l IH]; simpl; [constructor |].
  now apply insert_desc_sorted.
Qed.

Lemma firstn_In {A} (n : nat) (l : list A) (a : A) :
  In a (firstn n l) -> In a l.
Proof.
  revert n; induction l as [| x l IH]; intros [| n]; simpl; try tauto.
  intros [H | H]; [now left | right; eapply IH; exact H].
Qed.

Lemma firstn_sorted {A} (R : A -> A -> Prop) (n : nat) (l : list A) :
  StronglySorted R l -> StronglySorted R (firstn n l).
Proof.
  intros H. revert n.
  induction H as [| x l Hs IH Hx]; intros [| n]; simpl; try constructor.
  - apply IH.
  - rewrite Forall_forall in *. intros a Ha.
    apply Hx. eapply firstn_In; exact Ha.
Qed.

(** With pairwise distinct timestamps, a descending list descends
    strictly. *)
Lemma sorted_strict (l : list donation) :
  NoDup (map timestamp l) ->
  StronglySorted not_older l -> StronglySorted newer l.
Proof.
  intros Hnd Hs.
  induction Hs as [| x l Hs IH Hx]; [constructor |].
  simpl in Hnd. inversion Hnd as [| ? ? Hnotin Hnd']; subst.
  constructor; [now apply IH |].
  rewrite Forall_forall in *. intros a Ha.
  specialize (Hx a Ha). unfold newer, not_older in *.
  assert (timestamp a <> timestamp x).
  { intros Heq. apply Hnotin. rewrite <- Heq. now apply in_map. }
  lia.
Qed.

Lemma NoDup_firstn {A} (n : nat) (l : list A) :
  NoDup l -> NoDup (firstn n l).
Proof.
  intros H; revert n.
  induction H as [| x l Hx Hnd IH]; intros [| n]; simpl; try constructor.
  - intros Hin. apply Hx. eapply firstn_In; exact Hin.
  - apply IH.
Qed.

Lemma select_recent_length (t : table) :
  List.length (select_recent t) = Nat.min 3 (List.length (rows t)).
Proof.
  unfold select_recent. now rewrite length_firstn, order_by_length.
Qed.

Lemma select_recent_sorted (t : table) :
  StronglySorted not_older (select_recent t).
Proof. apply firstn_sorted, order_by_sorted. Qed.

Lemma rendered_length (clk : nat -> datetime) (n : nat) (l : list row) :
  List.length (rendered clk n l) = List.length l.
Proof.
  revert n; induction l as [| r l IH]; intros n; simpl; [reflexivity |].
  now rewrite IH.
Qed.

Lemma for_each_recent_entry (l : list row) (w : world) :
  for_each recent_entry l w =
    (Ok (rendered (clock w) (ticks w) l),
     {| disk := disk w; journal := journal w; stdout := stdout w;
        clock := clock w; ticks := (ticks w + List.length l)%nat |}).
Proof.
  revert w; induction l as [| r l IH]; intros w.
  - simpl. unfold ret. rewrite Nat.add_0_r. now destruct w.
  - simpl. unfold bind at 1. unfold recent_entry at 1.
    unfold bind at 1. unfold datetime_now at 1. unfold ret at 1.
    unfold bind at 1. rewrite IH. simpl. unfold ret.
    now rewrite Nat.add_succ_r.
Qed.

(** What [get_stats] answers when the table is there. *)
Lemma get_stats_response (w : world) (t : table) :
  disk w = Some (Database (Some t)) ->
  fst (get_stats w) =
    Ok (jsonify
          (stats_document (select_count t) (round4 (select_total t))
             (rendered (clock w) (ticks w)
                (map project (select_recent t))))
          200).
Proof.
  intros Hd. destruct w as [d j out clk n]. simpl in Hd. subst d.
  unfold get_stats, get_stats_via, try_except, read_stats.
  unfold bind at 2. unfold bind at 2.
  unfold get_db_connection, bind, sqlite3_connect, ret. simpl.
  unfold select, do_rollback. simpl.
  destruct j as [f |]; simpl; rewrite for_each_recent_entry; reflexivity.
Qed.

(** With no transaction left open, [get_stats] leaves the file alone. *)
Lemma get_stats_world (w : world) (t : table) :
  disk w = Some (Database (Some t)) ->
  journal w = None ->
  snd (get_stats w) =
    {| disk := disk w; journal := None; stdout := stdout w;
       clock := clock w;
       ticks := (ticks w + List.length (select_recent t))%nat |}.
Proof.
  intros Hd Hj. destruct w as [d j out clk n]. simpl in Hd, Hj. subst d j.
  unfold get_stats, get_stats_via, try_except, read_stats.
  unfold bind at 2. unfold bind at 2.
  unfold get_db_connection, bind, sqlite3_connect, ret. simpl.
  unfold select, do_rollback. simpl.
  rewrite for_each_recent_entry. simpl. now rewrite length_map.
Qed.

Lemma get_stats_no_table (w : world) :
  table_of w = None ->
  fst (get_stats w) = Ok (jsonify (stats_document 0 (Int 0) []) 500) /\
  table_of (snd (get_stats w)) = None.
Proof.
  destruct w as [d j out clk n]. unfold table_of. simpl.
  destruct d as [[| [t |]] |]; intros H; try discriminate;
    split; reflexivity.
Qed.

End Recent.

(** C2, as stated, at [tied_table]: both rows come back, and neither is
    stamped after the other. *)
Lemma recent_tied_not_strict :
  fst (get_stats (world_at noon (Some (Database (Some tied_table))))) =
    Ok (jsonify
          (stats_document 2 (Float 0.07%Q)
             [ JDict [ ("amount", JStr "0.0500 BNB");
                       ("time", JStr "just now") ];
               JDict [ ("amount", JStr "0.0200 BNB");
                       ("time", JStr "just now") ] ])
          200) /\
  select_recent tied_table = rows tied_table /\
  ~ StronglySorted newer (select_recent tied_table).
Proof.
  split; [reflexivity |].
  split; [reflexivity |].
  intros H. simpl in H.
  inversion H as [| a l _ Hall]; subst.
  inversion Hall as [| b l' Hlt _]; subst.
  unfold newer in Hlt. simpl in Hlt. lia.
Qed.

Lemma rendered_entries (clk : nat -> datetime) (l : list donation) :
  forall n,
    Forall2
      (fun d entry =>
         exists label,
           entry =
             JDict [ ("amount",
                      JStr (format_4f (Double.stored (amount d)) ++ " BNB"));
                     ("time", JStr label) ])
      l (rendered clk n (map project l)).
Proof.
  induction l as [| d l IH]; intros n; simpl; constructor.
  - eexists. reflexivity.
  - apply IH.
Qed.

(** C2, amended. In every state of the storage, [get_stats] answers with
    as many recent entries as [min 3 (number of donation records)]; they
    render, in order and each with its amount, records that descend by
    timestamp, a later one never stamped after an earlier one, and
    strictly so when the timestamps of the records are pairwise
    distinct. *)
Theorem get_stats_recent (w : world) :
  exists n total recent entries code,
    fst (get_stats w) =
      Ok {| body :=
              inl (JDict [ ("total_donations", JNum (Int n));
                           ("total_amount_bnb", JNum total);
                           ("recent_donations", JList entries) ]);
            status := code |} /\
    Forall2
      (fun d entry =>
         exists label,
           entry =
             JDict [ ("amount",
                      JStr (format_4f (Double.stored (amount d)) ++ " BNB"));
                     ("time", JStr label) ])
      recent entries /\
    List.length entries = Nat.min 3 (List.length (records_of w)) /\
    incl recent (records_of w) /\
    StronglySorted not_older recent /\
    (NoDup (map timestamp (records_of w)) -> StronglySorted newer recent).
Proof.
  destruct (table_of w) as [t |] eqn:Ht.
  - assert (Hd : disk w = Some (Database (Some t))).
    { unfold table_of in Ht.
      destruct (disk w) as [[| [t' |]] |]; try discriminate.
      now inversion Ht. }
    unfold records_of. rewrite Ht.
    exists (select_count t), (round4 (select_total t)), (select_recent t),
      (rendered (clock w) (ticks w) (map project (select_recent t))), 200.
    split; [apply (get_stats_response w t Hd) |].
    split; [apply rendered_entries |].
    split; [now rewrite rendered_length, length_map, select_recent_length |].
    split.
    { intros d Hin. unfold select_recent in Hin.
      apply firstn_In in Hin.
      eapply Permutation_in;
        [apply Permutation_sym, order_by_perm | exact Hin]. }
    split; [apply select_recent_sorted |].
    intros Hnd. apply sorted_strict; [| apply select_recent_sorted].
    unfold select_recent. rewrite <- firstn_map. apply NoDup_firstn.
    eapply Permutation_NoDup; [| exact Hnd].
    apply Permutation_map, order_by_perm.
  - unfold records_of. rewrite Ht.
    exists 0, (Int 0), [], [], 500.
    split; [apply get_stats_no_table, Ht |].
    split; [constructor |].
    split; [reflexivity |].
    split; [intros d [] |].
    split; constructor.
Qed.

(** Four donations, stamped out of table order, three hours after the
    oldest but one: the three newest are listed, newest first. *)
Lemma get_stats_recent_witness :
  exists recent,
    fst (get_stats
           (world_at (noon + 3 * us_per_hour)
              (Some (Database (Some four_donations))))) =
      Ok {| body :=
              inl (JDict
                     [ ("total_donations", JNum (Int 4));
                       ("total_amount_bnb", JNum (Float 0.47%Q));
                       ("recent_donations",
                        JList
                          [ JDict [ ("amount", JStr "0.3000 BNB");
                                    ("time", JStr "1h ago") ];
                            JDict [ ("amount", JStr "0.0200 BNB");
                                    ("time", JStr "2h ago") ];
                            JDict [ ("amount", JStr "0.0500 BNB");
                                    ("time", JStr "3h ago") ] ]) ]);
            status := 200 |} /\
    List.length recent = 3%nat /\
    incl recent (rows four_donations) /\
    StronglySorted newer recent.
Proof.
  destruct (get_stats_recent
              (world_at (noon + 3 * us_per_hour)
                 (Some (Database (Some four_donations)))))
    as [n [total [recent [entries [code
         [Hrun [Hall [Hlen [Hincl [_ Hstrict]]]]]]]]]].
  exists recent.
  split; [vm_compute; reflexivity |].
  split; [rewrite (Forall2_length Hall); exact Hlen |].
  split; [exact Hincl |].
  apply Hstrict. unfold records_of, table_of, four_donations; simpl.
  repeat constructor; simpl;
    intros H; repeat (destruct H as [H | H]; [vm_compute in H; discriminate H |]);
    exact H.
Defined.

(* ===================================================================== *)
(** * Failures inside the handlers *)
(* ===================================================================== *)

Section Failures.

Lemma read_stats_fault (connect : M connection) (w w' : world) (e : exn) :
  storage_fault connect w e w' -> read_stats connect w = (Raise e, w').
Proof.
  unfold read_stats, bind.
  intros [H | conn w1 H1 H | conn w1 total w2 H1 H2 H
          | conn w1 total w2 n w3 H1 H2 H3 H
          | conn w1 total w2 n w3 raw w4 H1 H2 H3 H4 H];
    repeat match goal with
           | Hx : _ = (_, _) |- _ => rewrite Hx; clear Hx
           end;
    reflexivity.
Qed.

Lemma get_stats_handles (connect : M connection) (w w' : world) (e : exn) :
  read_stats connect w = (Raise e, w') ->
  get_stats_via connect w =
    (Ok (jsonify (stats_document 0 (Int 0) []) 500),
     {| disk := disk w'; journal := journal w';
        stdout := List.app (stdout w') ["Error in get_stats: " ++ exn_msg e];
        clock := clock w'; ticks := ticks w' |}).
Proof.
  intros H. unfold get_stats_via, try_except.
  unfold bind at 1. rewrite H. reflexivity.
Qed.

Lemma for_each_recent_entry_ok (l : list row) (w : world) :
  exists entries w', for_each recent_entry l w = (Ok entries, w').
Proof.
  rewrite for_each_recent_entry. eauto.
Qed.

(** [get_stats] returns a response, whatever the connection does. *)
Lemma get_stats_returns (connect : M connection) (w : world) :
  exists resp w', get_stats_via connect w = (Ok resp, w').
Proof.
  unfold get_stats_via, try_except. unfold bind at 1.
  destruct (read_stats connect w) as [[[[total n] raw] | e] w1].
  - unfold bind at 1.
    destruct (for_each_recent_entry_ok raw w1) as [entries [w2 H]].
    rewrite H. unfold ret. eauto.
  - unfold bind, print, ret. eauto.
Qed.

End Failures.

(** C3. When a storage operation of [get_stats] raises (opening the
    connection, one of the three queries, or closing), the handler returns
    status 500 with [total_donations] 0, [total_amount_bnb] 0 and an empty
    [recent_donations]; it only adds a line to standard output, and never
    raises itself. *)
Theorem get_stats_storage_failure (connect : M connection)
    (w w' : world) (e : exn) :
  storage_fault connect w e w' ->
  get_stats_via connect w =
    (Ok {| body :=
             inl (JDict [ ("total_donations", JNum (Int 0));
                          ("total_amount_bnb", JNum (Int 0));
                          ("recent_donations", JList []) ]);
           status := 500 |},
     {| disk := disk w'; journal := journal w';
        stdout := List.app (stdout w') ["Error in get_stats: " ++ exn_msg e];
        clock := clock w'; ticks := ticks w' |}) /\
  (forall connect0 w0, exists resp w1,
      get_stats_via connect0 w0 = (Ok resp, w1)).
Proof.
  intros H. split.
  - apply get_stats_handles, read_stats_fault, H.
  - apply get_stats_returns.
Qed.

Lemma get_stats_storage_failure_witness :
  get_stats_via (ret broken_connection)
      (world_at noon (Some (Database (Some tied_table)))) =
    (Ok {| body :=
             inl (JDict [ ("total_donations", JNum (Int 0));
                          ("total_amount_bnb", JNum (Int 0));
                          ("recent_donations", JList []) ]);
           status := 500 |},
     {| disk := Some (Database (Some tied_table)); journal := None;
        stdout := ["Error in get_stats: disk I/O error"];
        clock := fun _ => noon; ticks := O |}).
Proof.
  apply (proj1 (get_stats_storage_failure (ret broken_connection)
                  (world_at noon (Some (Database (Some tied_table))))
                  (world_at noon (Some (Database (Some tied_table))))
                  (Exn OperationalError "disk I/O error")
                  (fault_total (ret broken_connection)
                     (world_at noon (Some (Database (Some tied_table))))
                     (Exn OperationalError "disk I/O error")
                     (world_at noon (Some (Database (Some tied_table))))
                     broken_connection
                     (world_at noon (Some (Database (Some tied_table))))
                     eq_refl eq_refl))).
Defined.

(* ===================================================================== *)
(** * The payment link *)
(* ===================================================================== *)

(** C4. Every answer of [crypto_info] with status 200 carries the address,
    the network name, the token symbol, the QR image as a data URI, and
    the payment link [ethereum:<address>@<chain id>] of the configured
    address and chain id. *)
Theorem crypto_info_payment_link
    (generate_qr_code : string -> result string)
    (w w' : world) (resp : response) :
  crypto_info generate_qr_code w = (Ok resp, w') ->
  status resp = 200 ->
  exists qr_code_base64,
    generate_qr_code "ethereum:0xd5d16f8A035fc52F4a93890D52Ca58004CF6E9B0@56"
      = Ok qr_code_base64 /\
    body resp =
      inl (JDict
             [ ("address", JStr BSC_ADDRESS);
               ("network", JStr "BNB Smart Chain");
               ("token", JStr "BNB");
               ("qr_code",
                JStr ("data:image/png;base64," ++ qr_code_base64));
               ("payment_link",
                JStr "ethereum:0xd5d16f8A035fc52F4a93890D52Ca58004CF6E9B0@56") ]) /\
    "ethereum:0xd5d16f8A035fc52F4a93890D52Ca58004CF6E9B0@56" =
      "ethereum:" ++ BSC_ADDRESS ++ "@" ++ str_int BSC_CHAIN_ID /\
    w' = w.
Proof.
  unfold crypto_info, try_except, bind, lift.
  change ("ethereum:" ++ BSC_ADDRESS ++ "@" ++ str_int BSC_CHAIN_ID)
    with "ethereum:0xd5d16f8A035fc52F4a93890D52Ca58004CF6E9B0@56".
  destruct (generate_qr_code _) as [b64 | e] eqn:Hqr.
  - unfold ret. intros H _. inversion H; subst; clear H.
    exists b64. repeat split; reflexivity.
  - unfold print, ret. intros H Hst. inversion H; subst; clear H.
    simpl in Hst. discriminate.
Qed.

Lemma crypto_info_payment_link_witness :
  exists qr_code_base64,
    Ok "iVBORw0KGgo=" = Ok qr_code_base64 /\
    body (jsonify
            (JDict
               [ ("address", JStr BSC_ADDRESS);
                 ("network", JStr "BNB Smart Chain");
                 ("token", JStr "BNB");
                 ("qr_code", JStr "data:image/png;base64,iVBORw0KGgo=");
                 ("payment_link",
                  JStr "ethereum:0xd5d16f8A035fc52F4a93890D52Ca58004CF6E9B0@56") ])
            200) =
      inl (JDict
             [ ("address", JStr BSC_ADDRESS);
               ("network", JStr "BNB Smart Chain");
               ("token", JStr "BNB");
               ("qr_code",
                JStr ("data:image/png;base64," ++ qr_code_base64));
               ("payment_link",
                JStr "ethereum:0xd5d16f8A035fc52F4a93890D52Ca58004CF6E9B0@56") ]) /\
    "ethereum:0xd5d16f8A035fc52F4a93890D52Ca58004CF6E9B0@56" =
      "ethereum:" ++ BSC_ADDRESS ++ "@" ++ str_int BSC_CHAIN_ID /\
    world_at noon None = world_at noon None.
Proof.
  apply (crypto_info_payment_link (fun _ => Ok "iVBORw0KGgo=")
           (world_at noon None) (world_at noon None) _ eq_refl eq_refl).
Defined.

(* ===================================================================== *)
(** * Initialisation *)
(* ===================================================================== *)

Section Initialisation.

(** No file, or a file without the table: the table is created and
    seeded. *)
Lemma init_database_fresh (w : world) :
  disk w = None \/ disk w = Some (Database None) ->
  init_database w =
    (Ok tt,
     {| disk := Some (Database (Some (seeded_table 0 (clock w) (ticks w))));
        journal := None;
        stdout := seeding_lines (stdout w);
        clock := clock w;
        ticks := S (S (S (ticks w))) |}).
Proof.
  destruct w as [d j out clk n]. simpl.
  intros [-> | ->]; destruct j as [f |]; reflexivity.
Qed.

(** A table without rows is seeded, with the ids that follow its
    counter. *)
Lemma init_database_no_rows (w : world) (s : Z) :
  disk w = Some (Database (Some {| rows := []; seq := s |})) ->
  init_database w =
    (Ok tt,
     {| disk := Some (Database (Some (seeded_table s (clock w) (ticks w))));
        journal := None;
        stdout := seeding_lines (stdout w);
        clock := clock w;
        ticks := S (S (S (ticks w))) |}).
Proof.
  destruct w as [d j out clk n]. simpl.
  intros ->; destruct j as [f |]; reflexivity.
Qed.

(** A table with a row is left as it is. *)
Lemma init_database_rows (w : world) (t : table) :
  disk w = Some (Database (Some t)) ->
  rows t <> [] ->
  init_database w =
    (Ok tt,
     {| disk := disk w;
        journal := None;
        stdout := List.app (stdout w) ["Database initialized successfully."];
        clock := clock w;
        ticks := ticks w |}).
Proof.
  destruct w as [d j out clk n]. simpl.
  intros -> Hrows. destruct t as [[| r l] s]; [contradiction |].
  unfold init_database, with_connection, try_except, bind, sqlite3_connect.
  simpl. unfold create_table_if_not_exists, select, select_count. simpl.
  reflexivity.
Qed.

Lemma init_database_empty_store (w : world) :
  empty_store w ->
  exists s,
    init_database w =
      (Ok tt,
       {| disk :=
            Some (Database (Some (seeded_table s (clock w) (ticks w))));
          journal := None;
          stdout := seeding_lines (stdout w);
          clock := clock w;
          ticks := S (S (S (ticks w))) |}).
Proof.
  unfold empty_store. intros H.
  destruct (disk w) as [[| [[l s] |]] |] eqn:Hd; try contradiction.
  - simpl in H. subst l. exists s. now apply init_database_no_rows.
  - exists 0. apply init_database_fresh. now right.
  - exists 0. apply init_database_fresh. now left.
Qed.

End Initialisation.

(** C5. On an empty store (no file, no table, or a table without rows)
    [init_database] inserts exactly the three sample donations, stamped
    one hour, three hours and one day before the readings of the clock,
    and commits them: no transaction stays open, so that the connection
    [get_stats] closes afterwards takes nothing back. Run again on the
    result, it leaves the table, and so the count of three, as it is. *)
Theorem init_database_idempotent (w : world) :
  empty_store w ->
  exists w1 w2 t,
    init_database w = (Ok tt, w1) /\
    table_of w1 = Some t /\
    journal w1 = None /\
    map values_of (rows t) =
      [ ("BNB", 0.05%Q, "sample_tx_1_bnb",
         clock w (ticks w) - us_per_hour);
        ("BNB", 0.02%Q, "sample_tx_2_bnb",
         clock w (S (ticks w)) - 3 * us_per_hour);
        ("BNB", 0.1%Q, "sample_tx_3_bnb",
         clock w (S (S (ticks w))) - us_per_day) ] /\
    select_count t = 3 /\
    table_of (snd (get_stats w1)) = Some t /\
    init_database w1 = (Ok tt, w2) /\
    table_of w2 = Some t /\
    journal w2 = None /\
    stdout w2 =
      List.app (stdout w1) ["Database initialized successfully."] /\
    table_of (snd (get_stats w2)) = Some t.
Proof.
  intros Hempty.
  destruct (init_database_empty_store w Hempty) as [s Hrun].
  set (t := seeded_table s (clock w) (ticks w)) in *.
  set (w1 := {| disk := Some (Database (Some t)); journal := None;
                stdout := seeding_lines (stdout w); clock := clock w;
                ticks := S (S (S (ticks w))) |}) in *.
  assert (Hagain := init_database_rows w1 t eq_refl).
  exists w1. eexists. exists t.
  split; [exact Hrun |].
  split; [reflexivity |].
  split; [reflexivity |].
  split; [reflexivity |].
  split; [reflexivity |].
  split; [now rewrite (get_stats_world w1 t eq_refl eq_refl) |].
  split; [apply Hagain; discriminate |].
  split; [reflexivity |].
  split; [reflexivity |].
  split; [reflexivity |].
  match goal with
  | |- table_of (snd (get_stats ?x)) = _ =>
      now rewrite (get_stats_world x t eq_refl eq_refl)
  end.
Qed.

Lemma init_database_idempotent_witness :
  exists w1 w2 t,
    init_database (world_at noon None) = (Ok tt, w1) /\
    table_of w1 = Some t /\
    journal w1 = None /\
    select_count t = 3 /\
    table_of (snd (get_stats w1)) = Some t /\
    init_database w1 = (Ok tt, w2) /\
    table_of w2 = Some t /\
    journal w2 = None.
Proof.
  destruct (init_database_idempotent (world_at noon None) I)
    as [w1 [w2 [t [H1 [H2 [H3 [_ [H4 [H5 [H6 [H7 [H8 _]]]]]]]]]]]].
  exists w1, w2, t. repeat split; assumption.
Defined.

(** C10. On a table that holds a row, [init_database] leaves the file as
    it is: every row with all its columns and the id counter; it inserts
    and deletes nothing, and only writes one line to standard output. *)
Theorem init_database_keeps_rows (w : world) (t : table) :
  disk w = Some (Database (Some t)) ->
  rows t <> [] ->
  exists w',
    init_database w = (Ok tt, w') /\
    disk w' = Some (Database (Some t)) /\
    table_of w' = Some t /\
    stdout w' = List.app (stdout w) ["Database initialized successfully."] /\
    ticks w' = ticks w.
Proof.
  intros Hd Hrows. eexists.
  split; [apply (init_database_rows w t Hd Hrows) |].
  unfold table_of. simpl. rewrite Hd. repeat split; reflexivity.
Qed.

Lemma init_database_keeps_rows_witness :
  exists w',
    init_database (world_at noon (Some (Database (Some tied_table))))
      = (Ok tt, w') /\
    disk w' = Some (Database (Some tied_table)).
Proof.
  destruct (init_database_keeps_rows
              (world_at noon (Some (Database (Some tied_table))))
              tied_table eq_refl)
    as [w' [Hrun [Hdisk _]]].
  - discriminate.
  - exists w'. split; assumption.
Defined.

(* ===================================================================== *)
(** * Uniqueness of the transaction hash *)
(* ===================================================================== *)

Section Uniqueness.

Lemma hash_in_use_In (h : string) (t : table) :
  hash_in_use h t = true <-> In h (map transaction_hash (rows t)).
Proof.
  unfold hash_in_use. rewrite existsb_exists, in_map_iff.
  split; intros [d [H1 H2]]; exists d.
  - apply String.eqb_eq in H2. now split.
  - split; [exact H2 | now apply String.eqb_eq].
Qed.

Lemma insert_used_hash (ct : string) (amt : Q) (h : string)
    (ts : datetime) (t : table) :
  hash_in_use h t = true ->
  insert (ct, amt, h, ts) t =
    inl (Exn IntegrityError
           "UNIQUE constraint failed: donations.transaction_hash").
Proof. intros H. unfold insert. now rewrite H. Qed.

End Uniqueness.

(** C6. An [INSERT] whose transaction hash is already that of a row of
    the table raises [IntegrityError], and the file holds the same table
    after it as before, row for row; rolling back the transaction the
    statement opened does not change that. *)
Theorem insert_duplicate_hash (w : world) (t : table)
    (ct : string) (amt : Q) (h : string) (ts : datetime) :
  disk w = Some (Database (Some t)) ->
  In h (map transaction_hash (rows t)) ->
  exists w',
    execute_insert sqlite_connection (ct, amt, h, ts) w =
      (Raise (Exn IntegrityError
                "UNIQUE constraint failed: donations.transaction_hash"),
       w') /\
    disk w' = Some (Database (Some t)) /\
    (journal w = None ->
     disk (snd (rollback sqlite_connection w')) = Some (Database (Some t))).
Proof.
  intros Hd Hin. apply hash_in_use_In in Hin.
  destruct w as [d j out clk n]. simpl in Hd. subst d.
  eexists. split.
  - change (execute_insert sqlite_connection) with insert_into_donations.
    unfold insert_into_donations. cbn [disk].
    rewrite (insert_used_hash ct amt h ts t Hin). reflexivity.
  - split; [destruct j; reflexivity |].
    simpl. intros ->. reflexivity.
Qed.

Lemma insert_duplicate_hash_witness :
  exists w',
    execute_insert sqlite_connection
        ("BNB", 0.3%Q, "0xabc", noon + us_per_hour)
        (world_at noon (Some (Database (Some tied_table)))) =
      (Raise (Exn IntegrityError
                "UNIQUE constraint failed: donations.transaction_hash"),
       w') /\
    disk w' = Some (Database (Some tied_table)).
Proof.
  destruct (insert_duplicate_hash
              (world_at noon (Some (Database (Some tied_table))))
              tied_table "BNB" 0.3%Q "0xabc" (noon + us_per_hour)
              eq_refl (or_introl eq_refl))
    as [w' [Hrun [Hdisk _]]].
  exists w'. split; assumption.
Defined.

(* ===================================================================== *)
(** * The total amount *)
(* ===================================================================== *)

Section Total.


Lemma sql_sum_nil : sql_sum [] = None.
Proof. reflexivity. Qed.





(** The hardware agrees: the seed amounts add up to the double that
    Python computes for [0.05 + 0.02 + 0.1], which is the double of
    [0.17]. *)
Remark seed_total_binary64 :
  Binary64.total Binary64.sample_amounts = Binary64.python_sum /\
  Binary64.total Binary64.sample_amounts = Binary64.seventeen_hundredths /\
  FloatOps.SF2Prim (Double.of_Q 0.17) = Binary64.seventeen_hundredths.
Proof. repeat split; vm_compute; reflexivity. Qed.

End Total.




(* ===================================================================== *)
(** * What the answers depend on *)
(* ===================================================================== *)

Section Dependence.

Lemma rendered_ext (clk1 clk2 : nat -> datetime) (l : list row) :
  forall n1 n2,
    (forall i, (i < List.length l)%nat -> clk1 (n1 + i)%nat = clk2 (n2 + i)%nat) ->
    rendered clk1 n1 l = rendered clk2 n2 l.
Proof.
  induction l as [| r l IH]; intros n1 n2 H; simpl; [reflexivity |].
  f_equal.
  - specialize (H O). rewrite !Nat.add_0_r in H.
    rewrite H by (simpl; lia). reflexivity.
  - apply IH. intros i Hi.
    specialize (H (S i)). rewrite !Nat.add_succ_r in H.
    apply H. simpl. lia.
Qed.

Lemma get_stats_same_response (w1 w2 : world) :
  disk w1 = disk w2 ->
  (forall i, (i < 3)%nat ->
     clock w1 (ticks w1 + i)%nat = clock w2 (ticks w2 + i)%nat) ->
  fst (get_stats w1) = fst (get_stats w2).
Proof.
  intros Hd Hc.
  destruct (table_of w1) as [t |] eqn:Ht.
  - assert (Hd1 : disk w1 = Some (Database (Some t))).
    { unfold table_of in Ht.
      destruct (disk w1) as [[| [t' |]] |]; try discriminate.
      now inversion Ht. }
    assert (Hd2 : disk w2 = Some (Database (Some t))) by congruence.
    rewrite (get_stats_response w1 t Hd1), (get_stats_response w2 t Hd2).
    do 3 f_equal.
    apply rendered_ext. intros i Hi. apply Hc.
    rewrite length_map, select_recent_length in Hi. lia.
  - assert (Ht2 : table_of w2 = None).
    { unfold table_of in *. now rewrite <- Hd. }
    rewrite (proj1 (get_stats_no_table w1 Ht)).
    rewrite (proj1 (get_stats_no_table w2 Ht2)). reflexivity.
Qed.

Lemma get_stats_keeps_table (w : world) :
  journal w = None -> table_of (snd (get_stats w)) = table_of w.
Proof.
  intros Hj. destruct (table_of w) as [t |] eqn:Ht.
  - assert (Hd : disk w = Some (Database (Some t))).
    { unfold table_of in Ht.
      destruct (disk w) as [[| [t' |]] |]; try discriminate.
      now inversion Ht. }
    rewrite (get_stats_world w t Hd Hj). unfold table_of. simpl.
    now rewrite Hd.
  - apply get_stats_no_table, Ht.
Qed.

End Dependence.

(** C8, as stated, at a table of one donation stamped [noon]: the storage
    is the same and [get_stats] answers "just now" at noon and "1h ago" an
    hour later. *)
Lemma get_stats_depends_on_clock :
  disk (world_at noon (Some (Database (Some (one_donation noon))))) =
    disk (world_at (noon + us_per_hour)
            (Some (Database (Some (one_donation noon))))) /\
  fst (get_stats
         (world_at noon (Some (Database (Some (one_donation noon)))))) =
    Ok (jsonify
          (stats_document 1 (Float (1 # 20))
             [ JDict [ ("amount", JStr "0.0500 BNB");
                       ("time", JStr "just now") ] ])
          200) /\
  fst (get_stats
         (world_at (noon + us_per_hour)
            (Some (Database (Some (one_donation noon)))))) =
    Ok (jsonify
          (stats_document 1 (Float (1 # 20))
             [ JDict [ ("amount", JStr "0.0500 BNB");
                       ("time", JStr "1h ago") ] ])
          200) /\
  fst (get_stats
         (world_at noon (Some (Database (Some (one_donation noon)))))) <>
  fst (get_stats
         (world_at (noon + us_per_hour)
            (Some (Database (Some (one_donation noon)))))).
Proof.
  split; [reflexivity |].
  split; [reflexivity |].
  split; [reflexivity |].
  intros H. vm_compute in H. discriminate H.
Qed.

(** C8, amended. The answer of [get_stats] is a function of the file at
    [DATABASE_PATH] and of the readings of the clock it takes, at most
    three: two runs that agree on these give the same answer. The answers
    of [crypto_info] and [index] are the same in any two worlds, for a
    given QR generator and template engine. [get_stats], run with no
    transaction open, leaves the table as it is, [crypto_info] leaves the
    file as it is, and [index] changes nothing. *)
Theorem handlers_determined
    (generate_qr_code render_template : string -> result string)
    (w1 w2 : world) :
  disk w1 = disk w2 ->
  (forall i, (i < 3)%nat ->
     clock w1 (ticks w1 + i)%nat = clock w2 (ticks w2 + i)%nat) ->
  fst (get_stats w1) = fst (get_stats w2) /\
  (forall w w', fst (crypto_info generate_qr_code w)
                = fst (crypto_info generate_qr_code w')) /\
  (forall w w', fst (index render_template w)
                = fst (index render_template w')) /\
  (journal w1 = None -> table_of (snd (get_stats w1)) = table_of w1) /\
  disk (snd (crypto_info generate_qr_code w1)) = disk w1 /\
  snd (index render_template w1) = w1.
Proof.
  intros Hd Hc.
  split; [now apply get_stats_same_response |].
  split.
  { intros w w'. unfold crypto_info, try_except, bind, lift.
    destruct (generate_qr_code _); reflexivity. }
  split.
  { intros w w'. unfold index, bind, lift.
    destruct (render_template _); reflexivity. }
  split; [apply get_stats_keeps_table |].
  split.
  - unfold crypto_info, try_except, bind, lift.
    destruct (generate_qr_code _); reflexivity.
  - unfold index, bind, lift.
    destruct (render_template _); reflexivity.
Qed.

Lemma handlers_determined_witness :
  fst (get_stats (world_at noon (Some (Database (Some tied_table))))) =
  fst (get_stats
         {| disk := Some (Database (Some tied_table)); journal := None;
            stdout := ["Database initialized successfully."];
            clock := fun n => if (n <? 7)%nat then 0 else noon;
            ticks := 7 |}).
Proof.
  apply (handlers_determined (fun _ => Ok "iVBORw0KGgo=")
           (fun _ => Ok "<html></html>")
           (world_at noon (Some (Database (Some tied_table))))
           {| disk := Some (Database (Some tied_table)); journal := None;
              stdout := ["Database initialized successfully."];
              clock := fun n => if (n <? 7)%nat then 0 else noon;
              ticks := 7 |}
           eq_refl).
  intros i Hi. reflexivity.
Defined.

(* ===================================================================== *)
(** * Start-up *)
(* ===================================================================== *)

Section Startup.

(** The check fails in two ways only: a file that is no database, or a
    database without the table. *)
Lemma check_database_raises (w w1 : world) (e : exn) :
  check_database w = (Raise e, w1) ->
  (disk w = Some Garbage /\ e = not_a_database /\ w1 = w) \/
  (disk w = Some (Database None) /\ e = no_such_table /\ w1 = w) \/
  (disk w = None /\ e = no_such_table).
Proof.
  destruct w as [d j out clk n].
  destruct d as [[| [t |]] |]; destruct j as [f |];
    cbv - [List.app]; intros H; inversion H; subst; auto.
Qed.

Lemma startup_no_table (RENDER : option string) (w : world) :
  disk w = Some (Database None) ->
  startup RENDER w =
    (Ok tt,
     {| disk := Some (Database (Some (seeded_table 0 (clock w) (ticks w))));
        journal := None;
        stdout :=
          seeding_lines
            (List.app (stdout w)
               ["Database exists but needs initialization."]);
        clock := clock w;
        ticks := S (S (S (ticks w))) |}).
Proof.
  destruct w as [d j out clk n]. simpl. intros ->.
  destruct j as [f |]; reflexivity.
Qed.

Lemma startup_garbage (RENDER : option string) (w : world) :
  disk w = Some Garbage -> startup RENDER w = (Raise not_a_database, w).
Proof.
  destruct w as [d j out clk n]. simpl. intros ->. reflexivity.
Qed.

Lemma startup_no_file (RENDER : option string) (w : world) :
  disk w = None ->
  table_of (snd (startup RENDER w)) =
    Some (seeded_table 0 (clock w) (ticks w)).
Proof.
  destruct w as [d j out clk n]. simpl. intros ->.
  destruct j as [f |]; reflexivity.
Qed.

Lemma startup_table (RENDER : option string) (w : world) (t : table) :
  disk w = Some (Database (Some t)) ->
  journal w = None ->
  startup RENDER w =
    (Ok tt,
     {| disk := disk w; journal := None;
        stdout :=
          List.app (stdout w)
            ["Database exists and is properly structured."];
        clock := clock w; ticks := ticks w |}).
Proof.
  destruct w as [d j out clk n]. simpl. intros -> ->. reflexivity.
Qed.

(** Over an existing file, the start-up code is the check and its
    [except] clause. *)
Lemma startup_via_existing (RENDER : option string) (connect : M connection)
    (w : world) :
  disk w <> None ->
  startup_via RENDER connect w =
    try_except_only is_OperationalError
      (check_database_via connect) (fun _ => recover) w.
Proof.
  intros Hd. unfold startup_via. unfold bind at 1. unfold os_path_exists.
  destruct (disk w); [reflexivity | contradiction].
Qed.

(** The [except] clause deletes the file, whatever it holds, and seeds a
    new one. *)
Lemma recover_run (w : world) :
  disk w <> None ->
  recover w =
    (Ok tt,
     {| disk := Some (Database (Some (seeded_table 0 (clock w) (ticks w))));
        journal := None;
        stdout :=
          seeding_lines
            (List.app (stdout w)
               ["Database exists but needs initialization."]);
        clock := clock w;
        ticks := S (S (S (ticks w))) |}).
Proof.
  destruct w as [d j out clk n]. simpl. intros Hd.
  destruct d as [f |]; [| contradiction].
  unfold recover. unfold bind at 1. unfold print at 1. cbn [disk journal
    stdout clock ticks]. unfold bind at 1. unfold os_remove, set_disk.
  cbn [disk journal stdout clock ticks].
  rewrite init_database_fresh by (now left). reflexivity.
Qed.

Lemma startup_via_recovers (RENDER : option string) (connect : M connection)
    (w w1 : world) (e : exn) :
  disk w <> None ->
  check_database_via connect w = (Raise e, w1) ->
  is_OperationalError e = true ->
  disk w1 <> None ->
  startup_via RENDER connect w =
    (Ok tt,
     {| disk :=
          Some (Database (Some (seeded_table 0 (clock w1) (ticks w1))));
        journal := None;
        stdout :=
          seeding_lines
            (List.app (stdout w1)
               ["Database exists but needs initialization."]);
        clock := clock w1;
        ticks := S (S (S (ticks w1))) |}).
Proof.
  intros Hd Hcheck Hop Hd1.
  rewrite (startup_via_existing RENDER connect w Hd).
  unfold try_except_only, try_except. rewrite Hcheck, Hop.
  now apply recover_run.
Qed.


Lemma startup_via_checked (RENDER : option string) (connect : M connection)
    (w w1 : world) :
  disk w <> None ->
  check_database_via connect w = (Ok tt, w1) ->
  startup_via RENDER connect w = (Ok tt, w1).
Proof.
  intros Hd Hcheck.
  rewrite (startup_via_existing RENDER connect w Hd).
  unfold try_except_only, try_except. rewrite Hcheck. reflexivity.
Qed.


End Startup.




(* ===================================================================== *)
(** * Further properties: age labels *)
(* ===================================================================== *)

Section Labels.

Lemma normalize_seconds_range (e : Z) :
  0 <= seconds (normalize e) < 86400.
Proof.
  unfold normalize; simpl.
  assert (H : 0 <= e mod us_per_day < us_per_day)
    by (apply Z.mod_pos_bound; reflexivity).
  unfold us_per_day, us_per_second in *.
  split.
  - apply Z.div_pos; lia.
  - apply Z.div_lt_upper_bound; lia.
Qed.

Lemma normalize_wrapped (e : Z) :
  seconds (normalize (e mod us_per_day)) = seconds (normalize e) /\
  days (normalize (e mod us_per_day)) = 0.
Proof.
  unfold normalize; simpl.
  assert (H : 0 <= e mod us_per_day < us_per_day)
    by (apply Z.mod_pos_bound; reflexivity).
  split.
  - now rewrite Z.mod_mod by discriminate.
  - now apply Z.div_small.
Qed.

End Labels.

(** X1. Whatever the two instants, the age label is "just now", or a
    number of minutes from 1 to 59, or a number of hours from 1 to 23, or
    a number of days from 1 on: never 0 or a negative number, never 60
    minutes or 24 hours. *)
Theorem time_ago_forms (now ts : datetime) :
  time_ago (sub now ts) = "just now" \/
  (exists n, 1 <= n <= 59 /\ time_ago (sub now ts) = str_int n ++ "m ago") \/
  (exists n, 1 <= n <= 23 /\ time_ago (sub now ts) = str_int n ++ "h ago") \/
  (exists n, 1 <= n /\ time_ago (sub now ts) = str_int n ++ "d ago").
Proof.
  unfold sub, time_ago.
  pose proof (normalize_seconds_range (now - ts)) as Hs.
  set (d := normalize (now - ts)) in *.
  destruct (Z.ltb_spec 0 (days d)) as [Hd | Hd].
  - right; right; right. exists (days d). split; [lia | reflexivity].
  - destruct (Z.leb_spec 3600 (seconds d)) as [Hh | Hh].
    + right; right; left. exists (seconds d / 3600). split; [| reflexivity].
      split.
      * apply Z.div_le_lower_bound; lia.
      * assert (seconds d / 3600 < 24)
          by (apply Z.div_lt_upper_bound; lia).
        lia.
    + destruct (Z.leb_spec 60 (seconds d)) as [Hm | Hm].
      * right; left. exists (seconds d / 60). split; [| reflexivity].
        split.
        -- apply Z.div_le_lower_bound; lia.
        -- assert (seconds d / 60 < 60)
             by (apply Z.div_lt_upper_bound; lia).
           lia.
      * now left.
Qed.

(** X2. A donation stamped after the reading of the clock is labelled as
    if the time elapsed were the negative difference wrapped into one day:
    the label is that of an elapsed time below one day, so a timestamp one
    hour ahead reads "23h ago". *)
Theorem time_ago_future (now ts : datetime) :
  now < ts ->
  0 <= (now - ts) mod us_per_day < us_per_day /\
  time_ago (sub now ts) = time_ago (normalize ((now - ts) mod us_per_day)) /\
  (ts = now + us_per_hour -> time_ago (sub now ts) = "23h ago").
Proof.
  intros Hlt.
  assert (Hneg : days (normalize (now - ts)) < 0).
  { rewrite normalize_days. apply Z.div_lt_upper_bound; [reflexivity |]. lia. }
  destruct (normalize_wrapped (now - ts)) as [Hsec Hday].
  assert (Heq : time_ago (sub now ts) =
                  time_ago (normalize ((now - ts) mod us_per_day))).
  { unfold sub, time_ago. rewrite Hsec, Hday.
    destruct (Z.ltb_spec 0 (days (normalize (now - ts)))); [lia |].
    reflexivity. }
  split; [apply Z.mod_pos_bound; reflexivity |].
  split; [exact Heq |].
  intros ->. rewrite Heq.
  replace (now - (now + us_per_hour)) with (- us_per_hour) by lia.
  reflexivity.
Qed.

Lemma time_ago_future_witness :
  time_ago (sub noon (noon + us_per_hour)) = "23h ago".
Proof.
  apply (time_ago_future noon (noon + us_per_hour)); [| reflexivity].
  unfold us_per_hour, us_per_second. lia.
Defined.

(* ===================================================================== *)
(** * Further properties: rounding and formatting *)
(* ===================================================================== *)

Section Rounding.

Lemma round_half_even_near (x : Q) :
  (Qabs (inject_Z (round_half_even x) - x) <= 1 # 2)%Q.
Proof.
  unfold round_half_even.
  pose proof (Qfloor_le x) as Hlo.
  pose proof (Qlt_floor x) as Hhi.
  rewrite inject_Z_plus in Hhi.
  change (inject_Z 1) with 1%Q in Hhi.
  set (f := Qfloor x) in *. clearbody f.
  apply Qabs_Qle_condition.
  destruct (Qcompare (x - inject_Z f) (1 # 2)) eqn:Hc.
  - apply Qeq_alt in Hc.
    destruct (Z.even f); [| rewrite inject_Z_plus];
      change (inject_Z 1) with 1%Q;
      set (g := inject_Z f) in *; clearbody g; split; lra.
  - apply Qlt_alt in Hc.
    set (g := inject_Z f) in *; clearbody g; split; lra.
  - apply Qgt_alt in Hc. rewrite inject_Z_plus.
    change (inject_Z 1) with 1%Q.
    set (g := inject_Z f) in *; clearbody g; split; lra.
Qed.

Lemma fraction_four_digits (m : Z) :
  0 <= m < 10000 -> four_digits (zfill 4 (str_int m)) = true.
Proof.
  intros Hm.
  assert (Hall : forallb
                   (fun k => four_digits (zfill 4 (str_int (Z.of_nat k))))
                   (List.seq 0 (Z.to_nat 10000)) = true)
    by (vm_compute; reflexivity).
  rewrite forallb_forall in Hall.
  rewrite <- (Z2Nat.id m) by lia.
  apply Hall, in_seq. lia.
Qed.


End Rounding.

(** X3. The amount of a recent donation is written as an optional minus
    sign, the integer part, a point and exactly four decimal digits,
    followed by " BNB"; the digits are those of the amount times 10000
    rounded to an integer at most one half away. *)
Theorem entry_amount_four_decimals (donation : row) (age : string) :
  exists n frac,
    entry_document donation age =
      JDict [ ("amount",
               JStr (((if Qlt_le_dec (row_amount donation) 0 then "-"
                       else "")
                      ++ str_int (Z.abs n / 10000) ++ "." ++ frac)
                     ++ " BNB"));
              ("time", JStr age) ] /\
    frac = zfill 4 (str_int (Z.abs n mod 10000)) /\
    four_digits frac = true /\
    (Qabs (inject_Z n - row_amount donation * 10000) <= 1 # 2)%Q.
Proof.
  exists (round_half_even (row_amount donation * inject_Z 10000)).
  eexists. split; [| split; [reflexivity | split]].
  - reflexivity.
  - apply fraction_four_digits. apply Z.mod_pos_bound. reflexivity.
  - apply round_half_even_near.
Qed.



(* ===================================================================== *)
(** * Further properties: the table *)
(* ===================================================================== *)

Section TableFacts.

Lemma sorted_app_order {A} (R : A -> A -> Prop) (l1 l2 : list A) :
  StronglySorted R (l1 ++ l2)%list ->
  forall a b, In a l1 -> In b l2 -> R a b.
Proof.
  induction l1 as [| x l1 IH]; simpl; intros Hs a b Ha Hb; [contradiction |].
  inversion Hs as [| ? ? Hs' Hall]; subst.
  destruct Ha as [-> | Ha].
  - rewrite Forall_forall in Hall. apply Hall, in_or_app. now right.
  - now apply IH.
Qed.

Lemma sum_amounts_snoc (l : list donation) (d : donation) :
  (sum_amounts (l ++ [d])%list == sum_amounts l + amount d)%Q.
Proof.
  induction l as [| x l IH]; simpl; [ring |].
  rewrite IH. ring.
Qed.

Lemma NoDup_snoc {A} (l : list A) (x : A) :
  NoDup l -> ~ In x l -> NoDup (l ++ [x])%list.
Proof.
  induction 1 as [| y l Hy Hnd IH]; simpl; intros Hx.
  - constructor; [intros [] | constructor].
  - constructor.
    + intros Hin. apply in_app_or in Hin. destruct Hin as [Hin | [-> | []]].
      * now apply Hy.
      * apply Hx. now left.
    + apply IH. intros Hin. apply Hx. now right.
Qed.


Lemma seeded_table_ok (s : Z) (clk : nat -> datetime) (n : nat) :
  table_ok (seeded_table s clk n).
Proof.
  unfold table_ok, seeded_table; simpl. repeat split.
  - repeat constructor; simpl; intuition discriminate.
  - repeat constructor; simpl; intuition lia.
  - repeat constructor; simpl; lia.
Qed.

End TableFacts.

(** X5. The rows the recent-donations query returns are the newest of
    the table: together with the rows it leaves out they are the whole
    table, and no row left out is stamped after a row returned. *)
Theorem select_recent_newest (t : table) :
  Permutation
    (select_recent t ++ skipn 3 (order_by_timestamp_desc (rows t)))%list
    (rows t) /\
  (forall a b,
     In a (select_recent t) ->
     In b (skipn 3 (order_by_timestamp_desc (rows t))) ->
     timestamp b <= timestamp a).
Proof.
  unfold select_recent. split.
  - rewrite firstn_skipn. apply Permutation_sym, order_by_perm.
  - intros a b Ha Hb.
    apply (sorted_app_order not_older
             (firstn 3 (order_by_timestamp_desc (rows t)))
             (skipn 3 (order_by_timestamp_desc (rows t)))); trivial.
    rewrite firstn_skipn. apply order_by_sorted.
Qed.

Lemma select_recent_newest_witness :
  timestamp (Donation 3 "BNB" 0.1%Q "0x123" (noon - us_per_hour))
  <= timestamp (Donation 1 "BNB" 0.05%Q "0xabc" noon).
Proof.
  apply (proj2 (select_recent_newest four_donations)).
  - vm_compute. right; right; left. reflexivity.
  - vm_compute. left. reflexivity.
Defined.



(** X7. A successful [INSERT] keeps what the schema promises: transaction
    hashes stay pairwise distinct, ids stay pairwise distinct, and no id
    exceeds the [AUTOINCREMENT] counter; the new row gets an id above
    every id of the table. *)
Theorem insert_keeps_table_ok (v : insert_values) (t t' : table) :
  table_ok t ->
  insert v t = inr t' ->
  table_ok t' /\
  Forall (fun d => id d < seq t') (rows t) /\
  (exists d, rows t' = (rows t ++ [d])%list /\ id d = seq t').
Proof.
  intros [Hh [Hi Hs]] Hins.
  destruct v as [[[ct amt] h] ts]. unfold insert in Hins.
  destruct (hash_in_use h t) eqn:Hu; [discriminate |].
  inversion Hins; subst t'; clear Hins. simpl.
  assert (Hnew : ~ In h (map transaction_hash (rows t))).
  { intros Hin. apply hash_in_use_In in Hin. congruence. }
  assert (Hbelow : Forall (fun d => id d < seq t + 1) (rows t)).
  { eapply Forall_impl; [| exact Hs]. simpl. intros d Hd. lia. }
  split; [| split; [exact Hbelow | eexists; split; reflexivity]].
  unfold table_ok; simpl. rewrite !map_app; simpl. repeat split.
  - now apply NoDup_snoc.
  - apply NoDup_snoc; [exact Hi |].
    intros Hin. apply in_map_iff in Hin. destruct Hin as [d [Hid Hd]].
    rewrite Forall_forall in Hbelow. specialize (Hbelow d Hd). lia.
  - apply Forall_app. split.
    + eapply Forall_impl; [| exact Hs]. simpl. intros d Hd. lia.
    + constructor; [simpl; lia | constructor].
Qed.

Lemma insert_keeps_table_ok_witness :
  table_ok
    {| rows := (rows tied_table ++ [Donation 3 "BNB" 0.3%Q "0x123" noon])%list;
       seq := 3 |}.
Proof.
  apply (insert_keeps_table_ok ("BNB", 0.3%Q, "0x123", noon) tied_table).
  - unfold table_ok, tied_table; simpl. repeat split.
    + repeat constructor; simpl; intuition discriminate.
    + repeat constructor; simpl; intuition discriminate.
    + repeat constructor; simpl; lia.
  - reflexivity.
Defined.

(* ===================================================================== *)
(** * Further properties: initialisation, start-up and the handlers *)
(* ===================================================================== *)

Section Runs.

Lemma table_of_disk (w : world) (t : table) :
  table_of w = Some t -> disk w = Some (Database (Some t)).
Proof.
  unfold table_of.
  destruct (disk w) as [[| [t' |]] |]; try discriminate.
  now intros [= ->].
Qed.

Lemma init_database_garbage (w : world) :
  disk w = Some Garbage ->
  journal w = None ->
  init_database w = (Raise not_a_database, w).
Proof.
  destruct w as [d j out clk n]. simpl. intros -> ->. reflexivity.
Qed.

(** Unless the file is no database, [init_database] completes, with a
    table that holds a row and no transaction open. *)
Lemma init_database_completes (w : world) :
  disk w <> Some Garbage ->
  exists t1 out1 n1,
    init_database w =
      (Ok tt,
       {| disk := Some (Database (Some t1)); journal := None;
          stdout := out1; clock := clock w; ticks := n1 |}) /\
    rows t1 <> [] /\
    ((forall t, table_of w = Some t -> table_ok t) -> table_ok t1) /\
    (forall t, table_of w = Some t -> rows t <> [] -> t1 = t).
Proof.
  intros Hd.
  destruct (disk w) as [[| [[l s] |]] |] eqn:Hdisk.
  - contradiction.
  - destruct l as [| d l].
    + exists (seeded_table s (clock w) (ticks w)). do 2 eexists.
      split; [apply (init_database_no_rows w s Hdisk) |].
      split; [discriminate |].
      split; [intros _; apply seeded_table_ok |].
      intros t Ht. apply table_of_disk in Ht. rewrite Hdisk in Ht.
      injection Ht as <-. simpl. contradiction.
    + exists {| rows := d :: l; seq := s |}. do 2 eexists.
      split.
      { rewrite (init_database_rows w _ Hdisk) by discriminate.
        rewrite Hdisk. reflexivity. }
      split; [discriminate |].
      split.
      { intros Hok. apply Hok. unfold table_of. now rewrite Hdisk. }
      intros t Ht _. apply table_of_disk in Ht. rewrite Hdisk in Ht.
      now injection Ht.
  - exists (seeded_table 0 (clock w) (ticks w)). do 2 eexists.
    split; [apply init_database_fresh; now right |].
    split; [discriminate |].
    split; [intros _; apply seeded_table_ok |].
    intros t Ht. apply table_of_disk in Ht. rewrite Hdisk in Ht.
    discriminate.
  - exists (seeded_table 0 (clock w) (ticks w)). do 2 eexists.
    split; [apply init_database_fresh; now left |].
    split; [discriminate |].
    split; [intros _; apply seeded_table_ok |].
    intros t Ht. apply table_of_disk in Ht. rewrite Hdisk in Ht.
    discriminate.
Qed.

Lemma startup_creates (RENDER : option string) (w : world) :
  disk w = None ->
  startup RENDER w =
    (Ok tt,
     {| disk := Some (Database (Some (seeded_table 0 (clock w) (ticks w))));
        journal := None;
        stdout :=
          seeding_lines
            (List.app (stdout w)
               ["Creating database at " ++ DATABASE_PATH RENDER]);
        clock := clock w;
        ticks := S (S (S (ticks w))) |}).
Proof.
  destruct w as [d j out clk n]. simpl. intros ->.
  destruct j as [f |]; reflexivity.
Qed.

Lemma get_stats_no_file (w : world) :
  disk w = None ->
  get_stats w =
    (Ok (jsonify (stats_document 0 (Int 0) []) 500),
     {| disk := Some (Database None); journal := journal w;
        stdout :=
          List.app (stdout w)
            ["Error in get_stats: no such table: donations"];
        clock := clock w; ticks := ticks w |}).
Proof.
  destruct w as [d j out clk n]. simpl. intros ->. reflexivity.
Qed.

Lemma select_recent_seeded (clk : nat -> datetime) (n : nat) :
  clk (S n) - clk n <= 2 * us_per_hour ->
  clk (S (S n)) - clk (S n) <= 21 * us_per_hour ->
  select_recent (seeded_table 0 clk n) = rows (seeded_table 0 clk n).
Proof.
  intros H1 H2. unfold select_recent, seeded_table, order_by_timestamp_desc.
  cbn [rows fold_right insert_desc timestamp].
  assert (Ha : (clk (S (S n)) - us_per_day <=? clk (S n) - 3 * us_per_hour)
               = true).
  { apply Z.leb_le. unfold us_per_day, us_per_hour, us_per_second in *. lia. }
  assert (Hb : (clk (S n) - 3 * us_per_hour <=? clk n - us_per_hour) = true).
  { apply Z.leb_le. unfold us_per_hour, us_per_second in *. lia. }
  rewrite Ha. cbn [insert_desc timestamp]. rewrite Hb. reflexivity.
Qed.

End Runs.



(** X9. Whether the start-up code keeps the donations is decided by its
    check alone. Over a file that holds the table, whatever connection the
    check is given: when the check completes, the start-up code does
    nothing more, and the world is the one the check left; when the check
    raises an [OperationalError] and leaves the file in place, the table
    is replaced by the three samples, and every donation whose transaction
    hash is not one of theirs is lost. *)
Theorem startup_keeps_table (RENDER : option string) (connect : M connection)
    (w : world) (t : table) :
  disk w = Some (Database (Some t)) ->
  (forall w1,
     check_database_via connect w = (Ok tt, w1) ->
     startup_via RENDER connect w = (Ok tt, w1)) /\
  (forall e w1,
     check_database_via connect w = (Raise e, w1) ->
     is_OperationalError e = true ->
     disk w1 = disk w ->
     exists w2,
       startup_via RENDER connect w = (Ok tt, w2) /\
       table_of w2 = Some (seeded_table 0 (clock w1) (ticks w1)) /\
       map transaction_hash (records_of w2) =
         ["sample_tx_1_bnb"; "sample_tx_2_bnb"; "sample_tx_3_bnb"] /\
       (forall d,
          In d (rows t) ->
          ~ In (transaction_hash d)
              ["sample_tx_1_bnb"; "sample_tx_2_bnb"; "sample_tx_3_bnb"] ->
          ~ In d (records_of w2))).
Proof.
  intros Hd.
  assert (Hex : disk w <> None) by (rewrite Hd; discriminate).
  split.
  - intros w1 Hcheck. now apply startup_via_checked.
  - intros e w1 Hcheck Hop Hd1.
    assert (Hex1 : disk w1 <> None) by (rewrite Hd1; exact Hex).
    eexists.
    split; [apply (startup_via_recovers RENDER connect w w1 e); assumption |].
    split; [reflexivity |].
    split; [reflexivity |].
    intros d _ Hnew Hin. apply Hnew.
    change (In (transaction_hash d)
              (map transaction_hash
                 (rows (seeded_table 0 (clock w1) (ticks w1))))).
    apply in_map. exact Hin.
Qed.

(** Four donations on file. With the connection [sqlite3.connect] gives,
    the check completes and the file stays as it is; with the database
    locked by another process, none of the four is left. *)
Lemma startup_keeps_table_witness :
  startup None (world_at noon (Some (Database (Some four_donations)))) =
    (Ok tt,
     {| disk := Some (Database (Some four_donations));
        journal := None;
        stdout := ["Database exists and is properly structured."];
        clock := fun _ => noon;
        ticks := 0 |}) /\
  exists w2,
    startup_via None (ret locked_connection)
      (world_at noon (Some (Database (Some four_donations)))) = (Ok tt, w2) /\
    map transaction_hash (records_of w2) =
      ["sample_tx_1_bnb"; "sample_tx_2_bnb"; "sample_tx_3_bnb"] /\
    Forall (fun d => ~ In d (records_of w2)) (rows four_donations).
Proof.
  split.
  - apply (proj1 (startup_keeps_table None get_db_connection
                    (world_at noon (Some (Database (Some four_donations))))
                    four_donations eq_refl)).
    reflexivity.
  - destruct (proj2 (startup_keeps_table None (ret locked_connection)
                       (world_at noon (Some (Database (Some four_donations))))
                       four_donations eq_refl)
                locked
                (world_at noon (Some (Database (Some four_donations))))
                eq_refl eq_refl eq_refl)
      as [w2 [Hrun [_ [Hhashes Hlost]]]].
    exists w2. split; [exact Hrun |]. split; [exact Hhashes |].
    repeat constructor; apply Hlost;
      try (simpl; tauto);
      simpl; intros H;
      repeat (destruct H as [H | H]; [discriminate H |]); exact H.
Defined.

(** X10. Start-up is idempotent: once the start-up code has completed, from
    a world with no transaction open, running it again completes and
    leaves the file as the first run left it. *)
Theorem startup_twice (RENDER : option string) (w w1 : world) :
  journal w = None ->
  startup RENDER w = (Ok tt, w1) ->
  exists w2,
    startup RENDER w1 = (Ok tt, w2) /\
    disk w2 = disk w1 /\
    journal w2 = None.
Proof.
  intros Hj Hrun.
  assert (Hw1 : exists t1, disk w1 = Some (Database (Some t1))
                           /\ journal w1 = None).
  { destruct (disk w) as [[| [t |]] |] eqn:Hd.
    - rewrite (startup_garbage RENDER w Hd) in Hrun. discriminate.
    - rewrite (startup_table RENDER w t Hd Hj) in Hrun.
      injection Hrun as <-. cbn [disk journal]. rewrite Hd. eauto.
    - rewrite (startup_no_table RENDER w Hd) in Hrun.
      injection Hrun as <-. cbn [disk journal]. eauto.
    - rewrite (startup_creates RENDER w Hd) in Hrun.
      injection Hrun as <-. cbn [disk journal]. eauto. }
  destruct Hw1 as [t1 [Hd1 Hj1]].
  eexists. split; [apply (startup_table RENDER w1 t1 Hd1 Hj1) |].
  split; reflexivity.
Qed.

Lemma startup_twice_witness :
  exists w2,
    startup None
      {| disk := Some (Database (Some (seeded_table 0 (fun _ => noon) 0)));
         journal := None;
         stdout := seeding_lines ["Creating database at donations_bnb.db"];
         clock := fun _ => noon;
         ticks := 3 |} = (Ok tt, w2) /\
    disk w2 = Some (Database (Some (seeded_table 0 (fun _ => noon) 0))).
Proof.
  destruct (startup_twice None (world_at noon None) _ eq_refl
              (startup_creates None (world_at noon None) eq_refl))
    as [w2 [H1 [H2 _]]].
  exists w2. split; assumption.
Defined.

(** X11. [get_stats] answers 200 exactly when the block that reads the
    statistics completes, whatever connection it is given, and then with
    what the three queries returned: the count, the total rounded, one
    entry for each row; when the block raises it answers 500 with the
    zeroed document, also over a file that holds the table. With the
    connection [sqlite3.connect] gives, an answer 200 means the table is
    there, and without the table the answer is 500; on a missing file
    [get_stats] leaves an empty database file behind, from which the
    start-up code, taking its recovery branch, ends with the same seeded
    table as on no file at all. *)
Theorem get_stats_status (RENDER : option string) (connect : M connection)
    (w : world) :
  (forall total n raw w1,
     read_stats connect w = (Ok (total, n, raw), w1) ->
     exists entries,
       fst (get_stats_via connect w) =
         Ok {| body :=
                 inl (JDict [ ("total_donations", JNum (Int n));
                              ("total_amount_bnb", JNum (round4 total));
                              ("recent_donations", JList entries) ]);
               status := 200 |} /\
       List.length entries = List.length raw) /\
  (forall e w1,
     read_stats connect w = (Raise e, w1) ->
     fst (get_stats_via connect w) =
       Ok {| body :=
               inl (JDict [ ("total_donations", JNum (Int 0));
                            ("total_amount_bnb", JNum (Int 0));
                            ("recent_donations", JList []) ]);
             status := 500 |}) /\
  (exists resp,
     fst (get_stats w) = Ok resp /\
     (status resp = 200 \/ status resp = 500) /\
     (status resp = 200 -> exists t, table_of w = Some t) /\
     (table_of w = None -> status resp = 500)) /\
  (disk w = None ->
   journal w = None ->
   exists resp w1 w2,
     get_stats w = (Ok resp, w1) /\
     status resp = 500 /\
     disk w1 = Some (Database None) /\
     startup RENDER w1 = (Ok tt, w2) /\
     table_of w2 = Some (seeded_table 0 (clock w) (ticks w)) /\
     table_of w2 = table_of (snd (startup RENDER w))).
Proof.
  split; [| split; [| split]].
  - intros total n raw w1 Hread.
    exists (rendered (clock w1) (ticks w1) raw).
    split; [| apply rendered_length].
    unfold get_stats_via, try_except. unfold bind at 1. rewrite Hread.
    unfold bind at 1. rewrite for_each_recent_entry. reflexivity.
  - intros e w1 Hread.
    now rewrite (get_stats_handles connect w w1 e Hread).
  - destruct (table_of w) as [t |] eqn:Ht.
    + eexists.
      split; [apply (get_stats_response w t (table_of_disk w t Ht)) |].
      split; [now left |].
      split; [eauto | discriminate].
    + eexists. split; [apply (proj1 (get_stats_no_table w Ht)) |].
      split; [now right |].
      split; [discriminate | reflexivity].
  - intros Hd Hj. do 3 eexists.
    split; [apply (get_stats_no_file w Hd) |].
    split; [reflexivity |].
    split; [reflexivity |].
    split; [apply startup_no_table; reflexivity |].
    cbn [clock ticks]. split; [reflexivity |].
    now rewrite (startup_no_file RENDER w Hd).
Qed.

(** Four donations on file and the database locked: 500 and the zeroed
    document. No file: 500, and an empty database file that the start-up
    code then replaces. *)
Lemma get_stats_status_witness :
  fst (get_stats_via (ret locked_connection)
         (world_at noon (Some (Database (Some four_donations))))) =
    Ok {| body :=
            inl (JDict [ ("total_donations", JNum (Int 0));
                         ("total_amount_bnb", JNum (Int 0));
                         ("recent_donations", JList []) ]);
          status := 500 |} /\
  exists resp w1 w2,
    get_stats (world_at noon None) = (Ok resp, w1) /\
    status resp = 500 /\
    disk w1 = Some (Database None) /\
    startup None w1 = (Ok tt, w2) /\
    table_of w2 = Some (seeded_table 0 (fun _ => noon) 0).
Proof.
  split.
  - apply (proj1 (proj2 (get_stats_status None (ret locked_connection)
                           (world_at noon
                              (Some (Database (Some four_donations))))))
             locked (world_at noon (Some (Database (Some four_donations))))).
    reflexivity.
  - destruct (proj2 (proj2 (proj2 (get_stats_status None get_db_connection
                                     (world_at noon None))))
                eq_refl eq_refl)
      as [resp [w1 [w2 [H1 [H2 [H3 [H4 [H5 _]]]]]]]].
    exists resp, w1, w2. repeat split; assumption.
Defined.

(** X12. First run: when there is no file and the six readings of the
    clock do not go back and span less than an hour, the start-up code
    followed by [get_stats] answers 200 with three donations, the total
    0.17, and the three samples listed as "1h ago", "3h ago" and
    "1d ago". *)
Theorem first_run_stats (RENDER : option string) (w : world) :
  disk w = None ->
  steady (clock w) (ticks w) ->
  exists w1,
    startup RENDER w = (Ok tt, w1) /\
    fst (get_stats w1) =
      Ok (jsonify
            (stats_document 3 (Float 0.17%Q)
               [ JDict [ ("amount", JStr "0.0500 BNB");
                         ("time", JStr "1h ago") ];
                 JDict [ ("amount", JStr "0.0200 BNB");
                         ("time", JStr "3h ago") ];
                 JDict [ ("amount", JStr "0.1000 BNB");
                         ("time", JStr "1d ago") ] ])
            200).
Proof.
  intros Hd [H01 [H12 [H23 [H34 [H45 H50]]]]].
  set (w1 := {| disk :=
                  Some (Database
                          (Some (seeded_table 0 (clock w) (ticks w))));
                journal := None;
                stdout :=
                  seeding_lines
                    (List.app (stdout w)
                       ["Creating database at " ++ DATABASE_PATH RENDER]);
                clock := clock w;
                ticks := S (S (S (ticks w))) |}).
  exists w1. split; [apply (startup_creates RENDER w Hd) |].
  rewrite (get_stats_response w1 (seeded_table 0 (clock w) (ticks w))
             eq_refl).
  rewrite select_recent_seeded
    by (unfold us_per_hour, us_per_second in *; lia).
  unfold w1. cbn [clock ticks]. unfold seeded_table.
  cbn [rows map project rendered row_timestamp amount timestamp].
  unfold sub.
  set (c0 := clock w (ticks w)) in *.
  set (c1 := clock w (S (ticks w))) in *.
  set (c2 := clock w (S (S (ticks w)))) in *.
  set (c3 := clock w (S (S (S (ticks w))))) in *.
  set (c4 := clock w (S (S (S (S (ticks w)))))) in *.
  set (c5 := clock w (S (S (S (S (S (ticks w))))))) in *.
  assert (E1 : time_ago (normalize (c3 - (c0 - us_per_hour))) = "1h ago").
  { rewrite time_ago_hours
      by (unfold us_per_day, us_per_hour, us_per_second in *; lia).
    replace ((c3 - (c0 - us_per_hour)) / us_per_hour) with 1; [reflexivity |].
    apply Z.div_unique with (r := c3 - c0);
      unfold us_per_hour, us_per_second in *; lia. }
  assert (E2 : time_ago (normalize (c4 - (c1 - 3 * us_per_hour))) = "3h ago").
  { rewrite time_ago_hours
      by (unfold us_per_day, us_per_hour, us_per_second in *; lia).
    replace ((c4 - (c1 - 3 * us_per_hour)) / us_per_hour) with 3;
      [reflexivity |].
    apply Z.div_unique with (r := c4 - c1);
      unfold us_per_hour, us_per_second in *; lia. }
  assert (E3 : time_ago (normalize (c5 - (c2 - us_per_day))) = "1d ago").
  { rewrite time_ago_days
      by (unfold us_per_day, us_per_hour, us_per_second in *; lia).
    replace ((c5 - (c2 - us_per_day)) / us_per_day) with 1; [reflexivity |].
    apply Z.div_unique with (r := c5 - c2);
      unfold us_per_day, us_per_hour, us_per_second in *; lia. }
  rewrite E1, E2, E3. reflexivity.
Qed.

Lemma first_run_stats_witness :
  exists w1,
    startup None (world_at noon None) = (Ok tt, w1) /\
    fst (get_stats w1) =
      Ok (jsonify
            (stats_document 3 (Float 0.17%Q)
               [ JDict [ ("amount", JStr "0.0500 BNB");
                         ("time", JStr "1h ago") ];
                 JDict [ ("amount", JStr "0.0200 BNB");
                         ("time", JStr "3h ago") ];
                 JDict [ ("amount", JStr "0.1000 BNB");
                         ("time", JStr "1d ago") ] ])
            200).
Proof.
  apply (first_run_stats None (world_at noon None) eq_refl).
  unfold steady. cbn [world_at clock ticks].
  repeat split; vm_compute; (reflexivity || discriminate).
Defined.

(** X13. With no transaction open at the call, [init_database],
    [get_stats] and the start-up code leave none open, whether they
    return or raise. *)
Theorem no_transaction_left_open (RENDER : option string) (w : world) :
  journal w = None ->
  journal (snd (init_database w)) = None /\
  journal (snd (get_stats w)) = None /\
  journal (snd (startup RENDER w)) = None.
Proof.
  intros Hj. split; [| split].
  - destruct (disk w) as [[| tbl] |] eqn:Hd.
    + now rewrite (init_database_garbage w Hd Hj).
    + destruct (init_database_completes w) as [t1 [out1 [n1 [Hrun _]]]];
        [congruence | now rewrite Hrun].
    + destruct (init_database_completes w) as [t1 [out1 [n1 [Hrun _]]]];
        [congruence | now rewrite Hrun].
  - destruct (disk w) as [[| [t |]] |] eqn:Hd.
    + destruct w as [d j out clk n]. simpl in Hd, Hj. now subst d j.
    + now rewrite (get_stats_world w t Hd Hj).
    + destruct w as [d j out clk n]. simpl in Hd, Hj. now subst d j.
    + now rewrite (get_stats_no_file w Hd).
  - destruct (disk w) as [[| [t |]] |] eqn:Hd.
    + now rewrite (startup_garbage RENDER w Hd).
    + now rewrite (startup_table RENDER w t Hd Hj).
    + now rewrite (startup_no_table RENDER w Hd).
    + now rewrite (startup_creates RENDER w Hd).
Qed.

Lemma no_transaction_left_open_witness :
  journal (snd (init_database (world_at noon (Some Garbage)))) = None /\
  journal (snd (get_stats (world_at noon (Some Garbage)))) = None /\
  journal (snd (startup None (world_at noon (Some Garbage)))) = None.
Proof.
  apply (no_transaction_left_open None (world_at noon (Some Garbage))).
  reflexivity.
Defined.

(** X14. [crypto_info] never raises: when the QR generator raises, the
    handler answers 500 with the fixed error document and writes the
    message of the exception to standard output; it answers 200 exactly
    when the generator returns, and then writes nothing. *)
Theorem crypto_info_failure
    (generate_qr_code : string -> result string) (w : world) :
  exists resp w',
    crypto_info generate_qr_code w = (Ok resp, w') /\
    (forall e,
       generate_qr_code
         ("ethereum:" ++ BSC_ADDRESS ++ "@" ++ str_int BSC_CHAIN_ID)
         = Raise e ->
       resp = jsonify
                (JDict [ ("error", JStr "Failed to generate crypto info") ])
                500 /\
       stdout w' =
         List.app (stdout w) ["Error in crypto_info: " ++ exn_msg e]) /\
    (status resp = 200 <->
     exists b64,
       generate_qr_code
         ("ethereum:" ++ BSC_ADDRESS ++ "@" ++ str_int BSC_CHAIN_ID)
         = Ok b64) /\
    (status resp = 200 -> w' = w).
Proof.
  unfold crypto_info, try_except, bind, lift.
  destruct (generate_qr_code _) as [b64 | e]; do 2 eexists.
  - split; [reflexivity |]. split; [discriminate |].
    split; [split; eauto | reflexivity].
  - split; [reflexivity |]. split.
    + intros e' [= <-]. split; reflexivity.
    + split; [split; [discriminate | intros [b64 H]; discriminate] |].
      discriminate.
Qed.

Lemma crypto_info_failure_witness :
  crypto_info (fun _ => Raise (Exn OtherException "no PIL"))
      (world_at noon None) =
    (Ok (jsonify
           (JDict [ ("error", JStr "Failed to generate crypto info") ])
           500),
     {| disk := None; journal := None;
        stdout := ["Error in crypto_info: no PIL"];
        clock := fun _ => noon; ticks := O |}).
Proof.
  destruct (crypto_info_failure
              (fun _ => Raise (Exn OtherException "no PIL"))
              (world_at noon None))
    as [resp [w' [Hrun [Hfail _]]]].
  destruct (Hfail _ eq_refl) as [Hresp Hout].
  rewrite Hrun. vm_compute in Hrun. inversion Hrun. reflexivity.
Defined.

(** X15. The two tests on [RENDER] differ: debug mode is on exactly when
    the variable is unset, the persistent path is used exactly when it is
    set to a non-empty text; so the persistent path always comes without
    debug mode, while [RENDER] set to the empty text gives the local path
    without debug mode. *)
Theorem render_switches (RENDER : option string) :
  (debug_mode RENDER = true <-> RENDER = None) /\
  (DATABASE_PATH RENDER = "/opt/render/project/data/donations_bnb.db" <->
   exists c s, RENDER = Some (String c s)) /\
  (DATABASE_PATH RENDER = "/opt/render/project/data/donations_bnb.db" ->
   debug_mode RENDER = false) /\
  (RENDER = Some "" ->
   DATABASE_PATH RENDER = "donations_bnb.db" /\ debug_mode RENDER = false).
Proof.
  destruct RENDER as [[| c s] |]; simpl; repeat split;
    try discriminate; try reflexivity; eauto;
    try (intros [c' [s' H]]; discriminate).
Qed.

Lemma render_switches_witness :
  DATABASE_PATH (Some "") = "donations_bnb.db" /\
  debug_mode (Some "") = false.
Proof.
  apply (proj2 (proj2 (proj2 (render_switches (Some ""))))).
  reflexivity.
Defined.
